(** * Valunatics: the financial projection and scoring engine

    A shallow embedding of the four calculators of the dashboard:

    - [ScoreCalculator]    supabase/functions/financial-advisor/index.ts
    - [GoalPlanProjector]  src/services/aiService.ts
    - [ScenarioProjector]  src/components/InvestmentScenarioSimulator.tsx
    - [WealthProjector]    src/components/WealthManagementTools.tsx

    JavaScript numbers are kept abstract behind the class [JsNumber], with
    two instances: exact rationals ([Q]) and IEEE 754 binary64 (Rocq's
    primitive floats).  The calculators are written once, against the
    class; properties that only depend on the control flow hold for every
    instance, concrete evaluations are replayed in both. *)

From Stdlib Require Import ZArith QArith Qround Qabs Ascii String List Bool Lia Lqa.
From Stdlib Require Floats.PrimFloat Numbers.Cyclic.Int63.Uint63.
From Stdlib Require DecimalString.
Import ListNotations.

Local Open Scope Z_scope.

(** ** JavaScript numbers *)

Declare Scope js_scope.
Delimit Scope js_scope with js.

(** The operations the calculators use on numbers.  [lit] reads a decimal
    literal of the program text, [of_Z] turns an integer counter into a
    number, [truthy] is ToBoolean.  The comparisons [>=] and [>] of the
    source are [le] and [lt] with the operands exchanged (both are false on
    NaN, as in JavaScript). *)
Class JsNumber (N : Type) : Type := {
  lit    : Q -> N;
  of_Z   : Z -> N;
  add    : N -> N -> N;
  sub    : N -> N -> N;
  mul    : N -> N -> N;
  div    : N -> N -> N;
  le     : N -> N -> bool;
  lt     : N -> N -> bool;
  truthy : N -> bool
}.

Arguments lit {N _} q%_Q.

Notation "x + y"   := (add x y) : js_scope.
Notation "x - y"   := (sub x y) : js_scope.
Notation "x * y"   := (mul x y) : js_scope.
Notation "x / y"   := (div x y) : js_scope.
Notation "x <=? y" := (le x y)  : js_scope.
Notation "x <? y"  := (lt x y)  : js_scope.
Notation "x >=? y" := (le y x)  : js_scope.
Notation "x >? y"  := (lt y x)  : js_scope.

(** Exact arithmetic: numbers are rationals.  Division by zero gives [0]
    here where JavaScript gives an infinity or NaN; the callers' contracts
    exclude it. *)
#[export] Instance Exact : JsNumber Q := {
  lit    := fun q => q;
  of_Z   := inject_Z;
  add    := Qplus;
  sub    := Qminus;
  mul    := Qmult;
  div    := Qdiv;
  le     := Qle_bool;
  lt     := fun x y => negb (Qle_bool y x);
  truthy := fun x => negb (Qeq_bool x 0)
}.

(** Binary64 arithmetic, as the JavaScript engine computes it.  An integer
    below 2^53 converts exactly; a decimal literal is the correctly rounded
    quotient of its numerator and denominator, which is the double the
    engine parses it to. *)
Definition float_of_Z (z : Z) : PrimFloat.float :=
  if z <? 0 then PrimFloat.opp (PrimFloat.of_uint63 (Uint63.of_Z (- z)))
  else PrimFloat.of_uint63 (Uint63.of_Z z).

Definition float_lit (q : Q) : PrimFloat.float :=
  PrimFloat.div (float_of_Z (Qnum q)) (float_of_Z (Zpos (Qden q))).

#[export] Instance Binary64 : JsNumber PrimFloat.float := {
  lit    := float_lit;
  of_Z   := float_of_Z;
  add    := PrimFloat.add;
  sub    := PrimFloat.sub;
  mul    := PrimFloat.mul;
  div    := PrimFloat.div;
  le     := PrimFloat.leb;
  lt     := PrimFloat.ltb;
  truthy := fun x => negb (PrimFloat.eqb x PrimFloat.zero) && PrimFloat.eqb x x
}.

(** ToBoolean on a string: only the empty string is falsy. *)
Definition str_truthy (s : string) : bool :=
  match s with EmptyString => false | String _ _ => true end.

(** [Math.round] on an exactly represented value: the nearest integer,
    ties towards +infinity. *)
Definition round_half_up (q : Q) : Z := Qfloor (q + (1 # 2)).

(** The risk tiers ['conservative' | 'moderate' | 'aggressive'] shared by
    the three projectors. *)
Inductive RiskTier := Conservative | Moderate | Aggressive.

Definition RiskTier_name (tier : RiskTier) : string :=
  match tier with
  | Conservative => "conservative"
  | Moderate => "moderate"
  | Aggressive => "aggressive"
  end.

(** [String(n)] for an integer. *)
Definition string_of_Z (z : Z) : string :=
  DecimalString.NilZero.string_of_int (Z.to_int z).

(** ** ScoreCalculator (financial-advisor/index.ts) *)

Module ScoreCalculator.

Inductive RiskTolerance := low | medium | high.

Inductive Category := poor | fair | good | excellent.

Record AssessmentRequest (N : Type) := {
  monthlyIncome       : N;
  monthlyExpenses     : N;
  totalDebt           : N;
  savingsAmount       : N;
  emergencyFundMonths : N;
  shortTermGoals      : string;
  longTermGoals       : string;
  riskTolerance       : RiskTolerance
}.

Arguments monthlyIncome {N} _.
Arguments monthlyExpenses {N} _.
Arguments totalDebt {N} _.
Arguments savingsAmount {N} _.
Arguments emergencyFundMonths {N} _.
Arguments shortTermGoals {N} _.
Arguments longTermGoals {N} _.
Arguments riskTolerance {N} _.

(** The score is a sum of integer literals, at most 100: it is carried as
    an integer.  The three message lists are in the order of the pushes. *)
Record AssessmentResult := {
  score           : Z;
  category        : Category;
  riskAreas       : list string;
  recommendations : list string;
  strengths       : list string
}.

(** The [scores] object of the source. *)
Record Scores := {
  savingsRate       : Z;
  debtManagement    : Z;
  emergencyFund     : Z;
  expenseManagement : Z;
  goalPlanning      : Z
}.

Section Calculator.

Context {N : Type} `{JsNumber N}.

(** [x.toFixed(digits)], the host's number formatting. *)
Variable toFixed : nat -> N -> string.

Local Open Scope js_scope.

Definition savingsRateOf (data : AssessmentRequest N) : N :=
  (monthlyIncome data - monthlyExpenses data) / monthlyIncome data.

Definition debtToIncomeRatioOf (data : AssessmentRequest N) : N :=
  let annualIncome := monthlyIncome data * lit 12 in
  totalDebt data / annualIncome.

Definition expenseRatioOf (data : AssessmentRequest N) : N :=
  monthlyExpenses data / monthlyIncome data.

Definition savingsRateScore (savingsRate : N) : Z :=
  if savingsRate >=? lit 0.25 then 25
  else if savingsRate >=? lit 0.20 then 22
  else if savingsRate >=? lit 0.15 then 20
  else if savingsRate >=? lit 0.10 then 15
  else if savingsRate >=? lit 0.05 then 10
  else if savingsRate >? lit 0 then 5
  else 0.

Definition debtManagementScore (debtToIncomeRatio : N) : Z :=
  if debtToIncomeRatio <=? lit 0.3 then 25
  else if debtToIncomeRatio <=? lit 0.5 then 20
  else if debtToIncomeRatio <=? lit 0.7 then 15
  else if debtToIncomeRatio <=? lit 1.0 then 10
  else 5.

Definition emergencyFundScore (months : N) : Z :=
  if months >=? lit 6 then 20
  else if months >=? lit 4 then 16
  else if months >=? lit 3 then 12
  else if months >=? lit 1 then 8
  else if months >? lit 0 then 4
  else 0.

Definition expenseManagementScore (expenseRatio : N) : Z :=
  if expenseRatio <=? lit 0.5 then 15
  else if expenseRatio <=? lit 0.65 then 12
  else if expenseRatio <=? lit 0.75 then 10
  else if expenseRatio <=? lit 0.85 then 7
  else 3.

Definition goalPlanningScore (shortTerm longTerm : string) : Z :=
  if str_truthy shortTerm && str_truthy longTerm then 15
  else if str_truthy shortTerm || str_truthy longTerm then 8
  else 0.

Definition computeScores (data : AssessmentRequest N) : Scores :=
  {| savingsRate       := savingsRateScore (savingsRateOf data);
     debtManagement    := debtManagementScore (debtToIncomeRatioOf data);
     emergencyFund     := emergencyFundScore (emergencyFundMonths data);
     expenseManagement := expenseManagementScore (expenseRatioOf data);
     goalPlanning      :=
       goalPlanningScore (shortTermGoals data) (longTermGoals data) |}.

Definition totalScoreOf (scores : Scores) : Z :=
  round_half_up (inject_Z (savingsRate scores + debtManagement scores
                           + emergencyFund scores + expenseManagement scores
                           + goalPlanning scores)).

Definition categoryOf (totalScore : Z) : Category :=
  if (totalScore >=? 80)%Z then excellent
  else if (totalScore >=? 60)%Z then good
  else if (totalScore >=? 40)%Z then fair
  else poor.

(** A conditional push: the messages of a branch that is not taken are
    not in the list. *)
Definition pushIf (c : bool) (msg : string) : list string :=
  if c then [msg] else [].

Definition riskAreasOf (data : AssessmentRequest N) : list string :=
  let savingsRate := savingsRateOf data in
  let debtToIncomeRatio := debtToIncomeRatioOf data in
  (if savingsRate <? lit 0.05 then
     ["Very low savings rate - you're spending most or all of your income"%string]
   else if savingsRate <? lit 0.10 then
     ["Low savings rate - consider increasing your monthly savings"%string]
   else [])
  ++
  (if debtToIncomeRatio >? lit 1.0 then
     [("High debt-to-income ratio of "
        ++ toFixed 1 (debtToIncomeRatio * lit 100)
        ++ "% - debt exceeds annual income")%string]
   else if debtToIncomeRatio >? lit 0.7 then
     [("Elevated debt-to-income ratio of "
        ++ toFixed 1 (debtToIncomeRatio * lit 100)
        ++ "% - consider debt reduction strategy")%string]
   else [])
  ++
  (if emergencyFundMonths data <? lit 3 then
     [("Insufficient emergency fund - you have coverage for only "
        ++ toFixed 1 (emergencyFundMonths data)
        ++ " months of expenses")%string]
   else [])
  ++
  (if monthlyExpenses data >? monthlyIncome data then
     ["Monthly expenses exceed income - you're running a deficit"%string]
   else if (monthlyExpenses data / monthlyIncome data) >? lit 0.85 then
     ["Expenses are consuming over 85% of income - limited flexibility for emergencies"%string]
   else []).

Definition strengthsOf (data : AssessmentRequest N) : list string :=
  let savingsRate := savingsRateOf data in
  let debtToIncomeRatio := debtToIncomeRatioOf data in
  (if savingsRate <? lit 0.05 then []
   else if savingsRate <? lit 0.10 then []
   else
     [("Healthy savings rate of " ++ toFixed 1 (savingsRate * lit 100)
        ++ "%")%string])
  ++
  (if debtToIncomeRatio >? lit 1.0 then []
   else if debtToIncomeRatio >? lit 0.7 then []
   else if debtToIncomeRatio <=? lit 0.3 then
     [("Excellent debt management with a "
        ++ toFixed 1 (debtToIncomeRatio * lit 100)
        ++ "% debt-to-income ratio")%string]
   else [])
  ++
  (if emergencyFundMonths data <? lit 3 then []
   else if emergencyFundMonths data >=? lit 6 then
     [("Strong emergency fund with " ++ toFixed 1 (emergencyFundMonths data)
        ++ " months of coverage")%string]
   else []).

Definition recommendationsOf (data : AssessmentRequest N) : list string :=
  let savingsRate := savingsRateOf data in
  let debtToIncomeRatio := debtToIncomeRatioOf data in
  pushIf (savingsRate <? lit 0.10)
    "Increase your monthly savings to at least 10% of income. Review expenses and identify areas to reduce."
  ++
  pushIf (debtToIncomeRatio >? lit 0.5)
    "Create a debt reduction strategy. Focus on paying down high-interest debt first (credit cards, personal loans)."
  ++
  pushIf (emergencyFundMonths data <? lit 3)
    "Build an emergency fund covering 3-6 months of expenses. Set up automatic monthly transfers to savings."
  ++
  pushIf (monthlyExpenses data >? monthlyIncome data * lit 0.85)
    "Review and reduce discretionary spending. Create a detailed budget tracking each expense category."
  ++
  (if str_truthy (shortTermGoals data) || str_truthy (longTermGoals data) then
     ["Create a timeline and savings plan for your goals. Break long-term goals into smaller milestones."%string]
   else
     ["Define clear short and long-term financial goals. Having specific targets helps motivate saving and investing."%string])
  ++
  pushIf (savingsAmount data >? lit 0)
    "Consider diversifying your savings across high-yield savings accounts and appropriate investments based on your risk tolerance.".

Definition calculateFinancialScore (data : AssessmentRequest N)
  : AssessmentResult :=
  let totalScore := totalScoreOf (computeScores data) in
  {| score           := totalScore;
     category        := categoryOf totalScore;
     riskAreas       := riskAreasOf data;
     recommendations := recommendationsOf data;
     strengths       := strengthsOf data |}.

(** *** The request handler

    [body] is the outcome of [req.json()]: the parsed request, or the
    message of the error it threw. *)
Inductive ResponseBody :=
| NoBody
| ErrorBody (error : string) (details : option string)
| ResultBody (result : AssessmentResult).

Record Response := {
  status  : Z;
  payload : ResponseBody
}.

Definition serve (method : string) (body : string + AssessmentRequest N)
  : Response :=
  if String.eqb method "OPTIONS" then
    {| status := 200; payload := NoBody |}
  else
    match body with
    | inl message =>
        {| status := 500;
           payload := ErrorBody "Failed to process assessment" (Some message) |}
    | inr data =>
        if negb (truthy (monthlyIncome data))
           || negb (str_truthy (shortTermGoals data))
           || negb (str_truthy (longTermGoals data))
        then
          {| status := 400;
             payload := ErrorBody "Missing required fields" None |}
        else
          {| status := 200;
             payload := ResultBody (calculateFinancialScore data) |}
    end.

End Calculator.

End ScoreCalculator.

(** ** GoalPlanProjector (services/aiService.ts) *)

Module GoalPlanProjector.

Inductive TargetGoal := retirement | home | education | wealth.

Definition TargetGoal_name (goal : TargetGoal) : string :=
  match goal with
  | retirement => "retirement"
  | home => "home"
  | education => "education"
  | wealth => "wealth"
  end.

(** [timeHorizon] is a whole number of years (the form reads it with
    [parseInt]). *)
Record FinancialPlanRequest (N : Type) := {
  age            : N;
  income         : N;
  currentSavings : N;
  targetGoal     : TargetGoal;
  targetAmount   : N;
  timeHorizon    : Z;
  riskTolerance  : RiskTier
}.

Arguments age {N} _.
Arguments income {N} _.
Arguments currentSavings {N} _.
Arguments targetGoal {N} _.
Arguments targetAmount {N} _.
Arguments timeHorizon {N} _.
Arguments riskTolerance {N} _.

Record MonthlyPlan (N : Type) := {
  month       : Z;
  savings     : N;
  investments : N;
  total       : N;
  milestone   : string
}.

Arguments month {N} _.
Arguments savings {N} _.
Arguments investments {N} _.
Arguments total {N} _.
Arguments milestone {N} _.

Record FinancialPlan (N : Type) := {
  summary         : string;
  monthlyPlans    : list (MonthlyPlan N);
  recommendations : list string;
  milestones      : list string
}.

Arguments summary {N} _.
Arguments monthlyPlans {N} _.
Arguments recommendations {N} _.
Arguments milestones {N} _.

(** The values of [month] in [for (let month = 1; month <= n; month++)]. *)
Definition monthsUpTo (n : Z) : list Z :=
  map Z.of_nat (seq 1 (Z.to_nat n)).

Section Projector.

Context {N : Type} `{JsNumber N}.

(** [x.toFixed(digits)] and [x.toLocaleString()], the host's number
    formatting. *)
Variable toFixed : nat -> N -> string.
Variable toLocaleString : N -> string.

Local Open Scope js_scope.

Definition monthlySavingsOf (request : FinancialPlanRequest N) : N :=
  (targetAmount request - currentSavings request)
  / (of_Z (timeHorizon request) * lit 12).

(** The body of the loop: the entry pushed for [month]. *)
Definition monthlyPlanAt (request : FinancialPlanRequest N)
    (monthlySavings : N) (month : Z) : MonthlyPlan N :=
  let savings := monthlySavings * lit 0.6 in
  let investments := monthlySavings * lit 0.4 in
  {| month       := month;
     savings     := savings * of_Z month;
     investments :=
       investments * of_Z month
       * (lit 1 + (match riskTolerance request with
                   | Aggressive => lit 0.01
                   | _ => lit 0.005
                   end));
     total       :=
       currentSavings request + savings * of_Z month
       + investments * of_Z month;
     milestone   :=
       if (month mod 12 =? 0)%Z
       then ("Year " ++ string_of_Z (month / 12)%Z ++ " milestone")%string
       else ""%string |}.

Definition generateMockFinancialPlan (request : FinancialPlanRequest N)
  : FinancialPlan N :=
  let monthlySavings := monthlySavingsOf request in
  {| summary :=
       ("Based on your goal to " ++ TargetGoal_name (targetGoal request)
        ++ " with a target of $" ++ toLocaleString (targetAmount request)
        ++ " in " ++ string_of_Z (timeHorizon request)
        ++ " years, we recommend a " ++ RiskTier_name (riskTolerance request)
        ++ " investment strategy with monthly savings of $"
        ++ toFixed 2 monthlySavings ++ ".")%string;
     monthlyPlans :=
       map (monthlyPlanAt request monthlySavings)
           (monthsUpTo (timeHorizon request * 12)%Z);
     recommendations :=
       [ "Automate monthly savings transfers"%string;
         "Diversify investments based on risk tolerance"%string;
         "Review and adjust plan quarterly"%string;
         "Consider tax-advantaged accounts"%string ];
     milestones :=
       [ ("Month 12: Reach $"
          ++ toFixed 0 (currentSavings request + monthlySavings * lit 12))%string;
         ("Month 24: Reach $"
          ++ toFixed 0 (currentSavings request + monthlySavings * lit 24))%string;
         ("Month " ++ string_of_Z (timeHorizon request * 12)%Z
          ++ ": Achieve target of $"
          ++ toLocaleString (targetAmount request))%string ] |}.

End Projector.

End GoalPlanProjector.

(** ** ScenarioProjector (components/InvestmentScenarioSimulator.tsx) *)

Module ScenarioProjector.

(** The functions of the host's [Math] object that the simulator calls.
    [Math_random k] is the value of the call to [Math.random()] that
    follows [k] earlier calls. *)
Record MathObject (N : Type) := {
  Math_sqrt   : N -> N;
  Math_pow    : N -> N -> N;
  Math_round  : N -> N;
  Math_random : nat -> N
}.

Arguments Math_sqrt {N} _ _.
Arguments Math_pow {N} _ _ _.
Arguments Math_round {N} _ _.
Arguments Math_random {N} _ _.

(** [duration] is a whole number of years (the form reads it with
    [parseInt]); [monthlyContribution] is optional. *)
Record SimulationInputs (N : Type) := {
  initialAmount       : N;
  duration            : Z;
  riskTolerance       : RiskTier;
  monthlyContribution : option N
}.

Arguments initialAmount {N} _.
Arguments duration {N} _.
Arguments riskTolerance {N} _.
Arguments monthlyContribution {N} _.

Record ProjectionData (N : Type) := {
  year         : Z;
  conservative : N;
  moderate     : N;
  aggressive   : N
}.

Arguments year {N} _.
Arguments conservative {N} _.
Arguments moderate {N} _.
Arguments aggressive {N} _.

Record ScenarioResult (N : Type) := {
  finalValue       : N;
  totalReturn      : N;
  annualizedReturn : N;
  maxDrawdown      : N;
  volatility       : N
}.

Arguments finalValue {N} _.
Arguments totalReturn {N} _.
Arguments annualizedReturn {N} _.
Arguments maxDrawdown {N} _.
Arguments volatility {N} _.

(** The fields [conservative], [moderate] and [aggressive] of the source's
    [SimulationResults] carry the suffix [Result] here: the plain names
    are the fields of [ProjectionData]. *)
Record SimulationResults (N : Type) := {
  conservativeResult : ScenarioResult N;
  moderateResult     : ScenarioResult N;
  aggressiveResult   : ScenarioResult N;
  projections        : list (ProjectionData N)
}.

Arguments conservativeResult {N} _.
Arguments moderateResult {N} _.
Arguments aggressiveResult {N} _.
Arguments projections {N} _.

(** An entry of [FINANCIAL_ASSUMPTIONS].  Its fields [volatility] and
    [maxDrawdown] are [assumedVolatility] and [assumedDrawdown] here: the
    plain names are the fields of [ScenarioResult]. *)
Record Assumptions (N : Type) := {
  annualReturn      : N;
  assumedVolatility : N;
  assumedDrawdown   : N;
  description       : string
}.

Arguments annualReturn {N} _.
Arguments assumedVolatility {N} _.
Arguments assumedDrawdown {N} _.
Arguments description {N} _.

(** The three running balances of [calculateProjection]. *)
Record Balances (N : Type) := {
  conservativeValue : N;
  moderateValue     : N;
  aggressiveValue   : N
}.

Arguments conservativeValue {N} _.
Arguments moderateValue {N} _.
Arguments aggressiveValue {N} _.

Section Projector.

Context {N : Type} `{JsNumber N}.

Variable Math : MathObject N.

Local Open Scope js_scope.

Definition FINANCIAL_ASSUMPTIONS (scenario : RiskTier) : Assumptions N :=
  match scenario with
  | Conservative =>
      {| annualReturn := lit 0.05; assumedVolatility := lit 0.08;
         assumedDrawdown := lit 0.15;
         description := "Bonds, CDs, Money Market Funds" |}
  | Moderate =>
      {| annualReturn := lit 0.08; assumedVolatility := lit 0.12;
         assumedDrawdown := lit 0.25;
         description := "Balanced Portfolio (60% Stocks, 40% Bonds)" |}
  | Aggressive =>
      {| annualReturn := lit 0.11; assumedVolatility := lit 0.18;
         assumedDrawdown := lit 0.40;
         description := "Growth Stocks, Equity Funds, Real Estate" |}
  end.

(** [p[scenario]] *)
Definition field (scenario : RiskTier) (p : ProjectionData N) : N :=
  match scenario with
  | Conservative => conservative p
  | Moderate => moderate p
  | Aggressive => aggressive p
  end.

(** One turn of the inner loop, from the balances and the number [k] of
    random draws made so far: the contribution, then three draws in the
    order conservative, moderate, aggressive, then the growth. *)
Definition monthStep (monthlyReturn monthlyVolatility monthlyContribution : N)
    (st : Balances N * nat) : Balances N * nat :=
  let '(b, k) := st in
  let conservativeValue' := conservativeValue b + monthlyContribution in
  let moderateValue' := moderateValue b + monthlyContribution in
  let aggressiveValue' := aggressiveValue b + monthlyContribution in
  let conservativeReturn :=
    monthlyReturn
    + (Math_random Math k - lit 0.5) * monthlyVolatility * lit 0.5 in
  let moderateReturn :=
    monthlyReturn
    + (Math_random Math (k + 1) - lit 0.5) * monthlyVolatility * lit 0.5 in
  let aggressiveReturn :=
    monthlyReturn
    + (Math_random Math (k + 2) - lit 0.5) * monthlyVolatility * lit 0.5 in
  ({| conservativeValue := conservativeValue' * (lit 1 + conservativeReturn);
      moderateValue     := moderateValue' * (lit 1 + moderateReturn);
      aggressiveValue   := aggressiveValue' * (lit 1 + aggressiveReturn) |},
   (k + 3)%nat).

Fixpoint monthLoop (months : nat)
    (monthlyReturn monthlyVolatility monthlyContribution : N)
    (st : Balances N * nat) : Balances N * nat :=
  match months with
  | O => st
  | S months' =>
      monthLoop months' monthlyReturn monthlyVolatility monthlyContribution
        (monthStep monthlyReturn monthlyVolatility monthlyContribution st)
  end.

(** The outer loop, [turns] iterations from [year] on: the entry of year 0
    is pushed as it is, every later year runs twelve months and pushes the
    rounded balances. *)
Fixpoint yearLoop (turns : nat) (year : Z)
    (monthlyReturn monthlyVolatility monthlyContribution : N)
    (st : Balances N * nat) : list (ProjectionData N) * nat :=
  match turns with
  | O => ([], snd st)
  | S turns' =>
      if (year =? 0)%Z then
        let '(rest, k) :=
          yearLoop turns' (year + 1)%Z
            monthlyReturn monthlyVolatility monthlyContribution st in
        ({| year := year;
            conservative := conservativeValue (fst st);
            moderate := moderateValue (fst st);
            aggressive := aggressiveValue (fst st) |} :: rest, k)
      else
        let st' :=
          monthLoop 12 monthlyReturn monthlyVolatility monthlyContribution st in
        let '(rest, k) :=
          yearLoop turns' (year + 1)%Z
            monthlyReturn monthlyVolatility monthlyContribution st' in
        ({| year := year;
            conservative := Math_round Math (conservativeValue (fst st'));
            moderate := Math_round Math (moderateValue (fst st'));
            aggressive := Math_round Math (aggressiveValue (fst st')) |}
           :: rest, k)
  end.

(** [calculateProjection], started after [k] random draws; it returns the
    projections and the number of draws made by then.  The loop
    [for (year = 0; year <= duration; year++)] has [duration + 1] turns
    (none when [duration] is negative). *)
Definition calculateProjection (initialAmount : N) (duration : Z)
    (scenario : RiskTier) (monthlyContribution : N) (k : nat)
  : list (ProjectionData N) * nat :=
  let assumptions := FINANCIAL_ASSUMPTIONS scenario in
  let monthlyReturn := annualReturn assumptions / lit 12 in
  let monthlyVolatility :=
    assumedVolatility assumptions / Math_sqrt Math (lit 12) in
  yearLoop (Z.to_nat (duration + 1)) 0%Z
    monthlyReturn monthlyVolatility monthlyContribution
    ({| conservativeValue := initialAmount;
        moderateValue := initialAmount;
        aggressiveValue := initialAmount |}, k).

(** [calculateScenarioResults]; [None] is the TypeError of indexing an
    empty array of projections. *)
Definition calculateScenarioResults (initialAmount : N)
    (projections : list (ProjectionData N)) (scenario : RiskTier)
  : option (ScenarioResult N) :=
  match rev projections with
  | [] => None
  | lastProjection :: _ =>
      let finalValue := field scenario lastProjection in
      let totalReturn := finalValue - initialAmount in
      let annualizedReturn :=
        (Math_pow Math (finalValue / initialAmount)
                  (lit 1 / of_Z (Z.of_nat (length projections)))
         - lit 1) * lit 100 in
      let assumptions := FINANCIAL_ASSUMPTIONS scenario in
      Some {| finalValue := finalValue;
              totalReturn := totalReturn;
              annualizedReturn := annualizedReturn;
              maxDrawdown := assumedDrawdown assumptions * lit 100;
              volatility := assumedVolatility assumptions * lit 100 |}
  end.

(** [conservativeProjections.map((_, index) => ...)]: one combined entry
    per conservative entry; [None] is the TypeError of reading a field of
    a missing entry of one of the other two arrays. *)
Fixpoint combineFrom (index : Z)
    (conservativeProjections moderateProjections aggressiveProjections
       : list (ProjectionData N))
  : option (list (ProjectionData N)) :=
  match conservativeProjections with
  | [] => Some []
  | c :: cs =>
      match moderateProjections, aggressiveProjections with
      | m :: ms, a :: aps =>
          match combineFrom (index + 1)%Z cs ms aps with
          | Some rest =>
              Some ({| year := index;
                       conservative := conservative c;
                       moderate := moderate m;
                       aggressive := aggressive a |} :: rest)
          | None => None
          end
      | _, _ => None
      end
  end.

(** [x || 0] on the optional contribution. *)
Definition orZero (x : option N) : N :=
  match x with
  | Some v => if truthy v then v else lit 0
  | None => lit 0
  end.

(** The body of the component's [useMemo] once the simulation has been
    requested: four projections in a row on the same random source, then
    the three summaries and the combined series. *)
Definition runSimulation (inputs : SimulationInputs N) (k : nat)
  : option (SimulationResults N) * nat :=
  let contribution := orZero (monthlyContribution inputs) in
  let '(_, k1) :=
    calculateProjection (initialAmount inputs) (duration inputs)
      (riskTolerance inputs) contribution k in
  let '(conservativeProjections, k2) :=
    calculateProjection (initialAmount inputs) (duration inputs)
      Conservative contribution k1 in
  let '(moderateProjections, k3) :=
    calculateProjection (initialAmount inputs) (duration inputs)
      Moderate contribution k2 in
  let '(aggressiveProjections, k4) :=
    calculateProjection (initialAmount inputs) (duration inputs)
      Aggressive contribution k3 in
  match combineFrom 0%Z conservativeProjections moderateProjections
          aggressiveProjections,
        calculateScenarioResults (initialAmount inputs)
          conservativeProjections Conservative,
        calculateScenarioResults (initialAmount inputs)
          moderateProjections Moderate,
        calculateScenarioResults (initialAmount inputs)
          aggressiveProjections Aggressive
  with
  | Some combinedProjections, Some c, Some m, Some a =>
      (Some {| conservativeResult := c;
               moderateResult := m;
               aggressiveResult := a;
               projections := combinedProjections |}, k4)
  | _, _, _, _ => (None, k4)
  end.

End Projector.

End ScenarioProjector.

(** ** WealthProjector (components/WealthManagementTools.tsx) *)

Module WealthProjector.

(** [age] and [retirementAge] are whole numbers (read with [parseInt]). *)
Record WealthData (N : Type) := {
  age                : Z;
  retirementAge      : Z;
  currentIncome      : N;
  currentAssets      : N;
  currentLiabilities : N;
  monthlySavings     : N;
  investmentReturn   : N;
  taxBracket         : N;
  estateValue        : N;
  riskTolerance      : RiskTier
}.

Arguments age {N} _.
Arguments retirementAge {N} _.
Arguments currentIncome {N} _.
Arguments currentAssets {N} _.
Arguments currentLiabilities {N} _.
Arguments monthlySavings {N} _.
Arguments investmentReturn {N} _.
Arguments taxBracket {N} _.
Arguments estateValue {N} _.
Arguments riskTolerance {N} _.

(** The field [age] of the source's [RetirementProjection] is
    [projectedAge] here: [age] is the field of [WealthData]. *)
Record RetirementProjection (N : Type) := {
  projectedAge : Z;
  savings      : N;
  investments  : N;
  total        : N
}.

Arguments projectedAge {N} _.
Arguments savings {N} _.
Arguments investments {N} _.
Arguments total {N} _.

Record AssetAllocation (N : Type) := {
  category   : string;
  percentage : N;
  value      : N
}.

Arguments category {N} _.
Arguments percentage {N} _.
Arguments value {N} _.

Section Projector.

Context {N : Type} `{JsNumber N}.

Local Open Scope js_scope.

(** Twelve turns of the inner loop on the running [savings]. *)
Fixpoint compoundMonths (months : nat) (monthlySavings monthlyReturn : N)
    (savings : N) : N :=
  match months with
  | O => savings
  | S months' =>
      let savings1 := savings + monthlySavings in
      let investments := savings1 * monthlyReturn in
      compoundMonths months' monthlySavings monthlyReturn
        (savings1 + investments)
  end.

Fixpoint retirementLoop (turns : nat) (year : Z) (wealthData : WealthData N)
    (monthlyReturn currentSavings : N) : list (RetirementProjection N) :=
  match turns with
  | O => []
  | S turns' =>
      let savings :=
        compoundMonths 12 (monthlySavings wealthData) monthlyReturn
          currentSavings in
      {| projectedAge := (age wealthData + year)%Z;
         savings := savings * lit 0.6;
         investments := savings * lit 0.4;
         total := savings |}
      :: retirementLoop turns' (year + 1)%Z wealthData monthlyReturn savings
  end.

Definition retirementProjections (wealthData : WealthData N)
  : list (RetirementProjection N) :=
  let yearsToRetirement := (retirementAge wealthData - age wealthData)%Z in
  let monthlyReturn := investmentReturn wealthData / lit 100 / lit 12 in
  retirementLoop (Z.to_nat (yearsToRetirement + 1)) 0%Z wealthData
    monthlyReturn (currentAssets wealthData - currentLiabilities wealthData).

Definition assetAllocation (wealthData : WealthData N)
  : list (AssetAllocation N) :=
  [ {| category := "Stocks";
       percentage :=
         match riskTolerance wealthData with
         | Aggressive => lit 80 | Moderate => lit 60 | Conservative => lit 40
         end;
       value :=
         (currentAssets wealthData - currentLiabilities wealthData)
         * (match riskTolerance wealthData with
            | Aggressive => lit 0.8 | Moderate => lit 0.6
            | Conservative => lit 0.4
            end) |};
    {| category := "Bonds";
       percentage :=
         match riskTolerance wealthData with
         | Aggressive => lit 10 | Moderate => lit 30 | Conservative => lit 50
         end;
       value :=
         (currentAssets wealthData - currentLiabilities wealthData)
         * (match riskTolerance wealthData with
            | Aggressive => lit 0.1 | Moderate => lit 0.3
            | Conservative => lit 0.5
            end) |};
    {| category := "Real Estate";
       percentage := lit 10;
       value :=
         (currentAssets wealthData - currentLiabilities wealthData)
         * lit 0.1 |} ].

(** What the button's handler stores in the component's state. *)
Definition calculateRetirementProjection (wealthData : WealthData N)
  : list (RetirementProjection N) * list (AssetAllocation N) :=
  (retirementProjections wealthData, assetAllocation wealthData).

End Projector.

End WealthProjector.

(** ** The guidance responder (financial-advisor/index.ts, first function) *)

Module FinancialGuidance.

(** [toLowerCase] on a string of bytes: the ASCII capitals are mapped to
    their small letters, every other byte is kept.  (The two code points
    outside ASCII whose lower case holds an ASCII letter, U+0130 and
    U+212A, give an [i] followed by a combining mark and a [k]: no keyword
    below ends in [i] or holds a [k], so the lookup is not affected.) *)
Definition lowerAscii (c : ascii) : ascii :=
  let n := nat_of_ascii c in
  if ((65 <=? n) && (n <=? 90))%nat then ascii_of_nat (n + 32) else c.

Fixpoint toLowerCase (s : string) : string :=
  match s with
  | EmptyString => EmptyString
  | String c rest => String (lowerAscii c) (toLowerCase rest)
  end.

(** [s.includes(key)]: [key] occurs in [s] at some position. *)
Fixpoint includes (s key : string) : bool :=
  String.prefix key s
  || match s with
     | EmptyString => false
     | String _ rest => includes rest key
     end.

(** The [responses] object, in the order of its keys. *)
Definition responses : list (string * string) :=
  [ ("budget",
     "This is general information, not financial advice. Budgeting is the foundation of personal finance. A common approach is the 50/30/20 rule: 50% for needs, 30% for wants, and 20% for savings and debt repayment. Start by tracking your income and expenses for a month to understand your spending patterns. Consider using budgeting tools to categorize expenses. The key is consistency and reviewing your budget quarterly. A qualified financial advisor can help you create a personalized budget strategy.");
    ("savings",
     "This is general information, not financial advice. Building an emergency fund with 3-6 months of expenses is generally recommended. High-yield savings accounts offer better rates than traditional savings accounts. Consider automating transfers to savings to build the habit. The best savings strategy depends on your income stability and goals. Consult a financial advisor to create a comprehensive savings and investment plan.");
    ("debt",
     "This is general information, not financial advice. High-interest debt (like credit cards) should generally be addressed first. Two common approaches are the avalanche method (highest interest first) and the snowball method (smallest balance first). Both require consistent monthly payments above minimums. Consolidation may be an option, but requires careful evaluation. A financial advisor can help you choose the best debt repayment strategy for your situation.");
    ("invest",
     "This is general information, not financial advice. Investment fundamentals include diversification, understanding risk tolerance, and investing for the long term. Common investment vehicles include stocks, bonds, mutual funds, and ETFs. Past performance doesn't guarantee future results. Risk increases with potential returns. Before investing, build an emergency fund and understand your goals and timeline. A qualified financial advisor can recommend an appropriate investment strategy based on your individual situation.");
    ("retirement",
     "This is general information, not financial advice. Retirement planning involves estimating expenses, understanding income sources (Social Security, pensions, savings), and creating a withdrawal strategy. Retirement accounts like 401(k)s and IRAs offer tax advantages. The earlier you start saving, the more time compound growth can work for you. Retirement needs vary greatly by individual. Consult a financial advisor for a personalized retirement plan.");
    ("tax",
     "This is general information, not financial advice. Tax planning should be part of your overall financial strategy. Consider retirement account contributions, charitable donations, and tax-loss harvesting. Tax laws change regularly. Keep organized records of income and deductions. A tax professional can help you optimize your tax situation and ensure compliance.");
    ("credit",
     "This is general information, not financial advice. Credit scores range from 300-850 and are based on payment history, credit utilization, length of history, and more. Paying bills on time is crucial. Keep credit card balances low (under 30% of limits). Check your credit report for errors. A higher score typically means better loan rates. Improving credit takes time but is worthwhile.")
  ]%string.

Definition fallbackResponse : string :=
  "This is general information, not financial advice. Your question touches on important financial concepts. Generally, sound financial management involves: understanding your current situation, setting clear goals, creating a plan to achieve them, and reviewing progress regularly. Key principles include living within your means, building an emergency fund, managing debt wisely, and planning for the future. The specific approach depends on your individual circumstances, so consulting with a qualified financial advisor is recommended for personalized guidance.".

(** The loop over [Object.entries(responses)]: the response of the first
    key that the question includes. *)
Fixpoint firstMatch (questionLower : string) (entries : list (string * string))
  : option string :=
  match entries with
  | [] => None
  | (key, response) :: rest =>
      if includes questionLower key then Some response
      else firstMatch questionLower rest
  end.

Definition generateFinancialGuidance (question : string) : string :=
  let questionLower := toLowerCase question in
  match firstMatch questionLower responses with
  | Some response => response
  | None => fallbackResponse
  end.

(** *** The request handler

    The [question] of the parsed body is any JSON value: absent, a string,
    or a value of another type with its truthiness. *)
Inductive JsonValue :=
| JsonUndefined
| JsonString (s : string)
| JsonOther (truthy : bool).

(** The optional [conversationHistory] of the body is never read. *)
Record RequestBody := {
  question : JsonValue
}.

Inductive ResponseBody :=
| NoBody
| ErrorBody (error : string) (details : option string)
| GuidanceBody (response : string).

Record Response := {
  status  : Z;
  payload : ResponseBody
}.

(** [body] is the outcome of [req.json()]: the parsed body, or the message
    of the error it threw.  The guard
    [!question || typeof question !== "string"] lets a non-empty string
    through and nothing else. *)
Definition serve (method : string) (body : string + RequestBody) : Response :=
  if String.eqb method "OPTIONS" then
    {| status := 200; payload := NoBody |}
  else
    match body with
    | inl message =>
        {| status := 500;
           payload := ErrorBody "Failed to process request" (Some message) |}
    | inr parsed =>
        match question parsed with
        | JsonString (String c rest) =>
            {| status := 200;
               payload :=
                 GuidanceBody (generateFinancialGuidance (String c rest)) |}
        | _ =>
            {| status := 400; payload := ErrorBody "Invalid request" None |}
        end
    end.

End FinancialGuidance.

(** ** The mock budget analysis (services/aiService.ts) *)

Module BudgetAnalyzer.

Record Expense (N : Type) := {
  category : string;
  amount   : N
}.

Arguments category {N} _.
Arguments amount {N} _.

(** A row of [categoryBreakdown]; its field [category] is [rowCategory]
    here, [category] being the field of [Expense]. *)
Record BreakdownRow (N : Type) := {
  rowCategory : string;
  current     : N;
  recommended : N;
  difference  : N
}.

Arguments rowCategory {N} _.
Arguments current {N} _.
Arguments recommended {N} _.
Arguments difference {N} _.

Record BudgetAnalysis (N : Type) := {
  totalIncome       : N;
  totalExpenses     : N;
  savings           : N;
  categoryBreakdown : list (BreakdownRow N);
  recommendations   : list string;
  potentialSavings  : N
}.

Arguments totalIncome {N} _.
Arguments totalExpenses {N} _.
Arguments savings {N} _.
Arguments categoryBreakdown {N} _.
Arguments recommendations {N} _.
Arguments potentialSavings {N} _.

Section Analyzer.

Context {N : Type} `{JsNumber N}.

Local Open Scope js_scope.

Definition generateMockBudgetAnalysis (expenses : list (Expense N))
    (income : N) : BudgetAnalysis N :=
  let totalExpenses :=
    fold_left (fun sum e => sum + amount e) expenses (lit 0) in
  let savings := income - totalExpenses in
  let categoryBreakdown :=
    map (fun exp =>
           let recommended := amount exp * lit 0.9 in
           {| rowCategory := category exp;
              current := amount exp;
              recommended := recommended;
              difference := amount exp - recommended |})
        expenses in
  {| totalIncome := income;
     totalExpenses := totalExpenses;
     savings := savings;
     categoryBreakdown := categoryBreakdown;
     recommendations :=
       [ "Reduce discretionary spending by 10%"%string;
         "Consider negotiating bills and subscriptions"%string;
         "Build emergency fund with savings"%string ];
     potentialSavings := totalExpenses * lit 0.1 |}.

End Analyzer.

End BudgetAnalyzer.

(** ** The assessment form's validation
    (the [isStepValid] of the component that posts to the handler) *)

Module AssessmentForm.

Section Form.

Context {N : Type} `{JsNumber N}.

(** [s.trim()] *)
Variable trim : string -> string.

Local Open Scope js_scope.

Definition isStepValid (step : Z)
    (formData : ScoreCalculator.AssessmentRequest N) : bool :=
  match step with
  | 1%Z => ScoreCalculator.monthlyIncome formData >? lit 0
  | 2%Z =>
      (ScoreCalculator.monthlyExpenses formData >=? lit 0)
      && (ScoreCalculator.totalDebt formData >=? lit 0)
  | 3%Z =>
      (ScoreCalculator.savingsAmount formData >=? lit 0)
      && (ScoreCalculator.emergencyFundMonths formData >=? lit 0)
  | 4%Z =>
      (0 <? String.length (trim (ScoreCalculator.shortTermGoals formData)))%nat
      && (0 <? String.length (trim (ScoreCalculator.longTermGoals formData)))%nat
  | _ => false
  end.

End Form.

End AssessmentForm.

(** ** The goal planning form (components/GoalBasedFinancialPlanning.tsx) *)

Module GoalForm.

Record ChartPoint (N : Type) := {
  month       : Z;
  savings     : N;
  investments : N;
  total       : N;
  target      : N
}.

Arguments month {N} _.
Arguments savings {N} _.
Arguments investments {N} _.
Arguments total {N} _.
Arguments target {N} _.

Section Form.

Context {N : Type} `{JsNumber N}.

Local Open Scope js_scope.

Definition isStepValid (step : Z)
    (formData : GoalPlanProjector.FinancialPlanRequest N) : bool :=
  match step with
  | 1%Z =>
      (GoalPlanProjector.age formData >? lit 0)
      && (GoalPlanProjector.income formData >? lit 0)
      && (GoalPlanProjector.currentSavings formData >=? lit 0)
  | 2%Z =>
      (GoalPlanProjector.targetAmount formData >? lit 0)
      && (GoalPlanProjector.timeHorizon formData >? 0)%Z
  | 3%Z => true
  | 4%Z => true
  | _ => false
  end.

(** [plan.monthlyPlans.map((p, index) => ...)], from [index] on. *)
Fixpoint chartDataFrom (index : Z) (targetAmount : N)
    (monthlyPlans : list (GoalPlanProjector.MonthlyPlan N))
  : list (ChartPoint N) :=
  match monthlyPlans with
  | [] => []
  | p :: rest =>
      {| month := (index + 1)%Z;
         savings := GoalPlanProjector.savings p;
         investments := GoalPlanProjector.investments p;
         total := GoalPlanProjector.total p;
         target := targetAmount |}
      :: chartDataFrom (index + 1)%Z targetAmount rest
  end.

(** [chartData]; without a plan it is the empty array. *)
Definition chartData (formData : GoalPlanProjector.FinancialPlanRequest N)
    (plan : option (GoalPlanProjector.FinancialPlan N))
  : list (ChartPoint N) :=
  match plan with
  | Some plan =>
      chartDataFrom 0%Z (GoalPlanProjector.targetAmount formData)
        (GoalPlanProjector.monthlyPlans plan)
  | None => []
  end.

End Form.

End GoalForm.

(** ** The wealth dashboard's figures (components/WealthManagementTools.tsx) *)

Module WealthDashboard.

Section Dashboard.

Context {N : Type} `{JsNumber N}.

Local Open Scope js_scope.

Definition netWorth (wealthData : WealthProjector.WealthData N) : N :=
  WealthProjector.currentAssets wealthData
  - WealthProjector.currentLiabilities wealthData.

(** The total of the last projection, 0 without projections. *)
Definition retirementSavings
    (projections : list (WealthProjector.RetirementProjection N)) : N :=
  match rev projections with
  | [] => lit 0
  | lastProjection :: _ => WealthProjector.total lastProjection
  end.

(** The 4% withdrawal rule. *)
Definition annualRetirementIncome
    (projections : list (WealthProjector.RetirementProjection N)) : N :=
  retirementSavings projections * lit 0.04.

End Dashboard.

End WealthDashboard.

(** ** Test doubles and sample inputs *)

(** A run of [n] zero digits. *)
Fixpoint zeros (n : nat) : string :=
  match n with
  | O => EmptyString
  | S n' => String "0"%char (zeros n')
  end.

(** [x.toFixed(digits)] on an exact value below 10^21: the decimal
    expansion of the nearest multiple of 10^-digits (the larger one on a
    tie), after the sign. *)
Definition Q_toFixed (digits : nat) (x : Q) : string :=
  let negative := negb (Qle_bool 0 x) in
  let n := Qfloor (Qabs x * inject_Z (10 ^ Z.of_nat digits) + (1 # 2)) in
  let ds := string_of_Z n in
  let ds := (zeros (S digits - String.length ds) ++ ds)%string in
  let whole := (String.length ds - digits)%nat in
  ((if negative then "-" else "")
   ++ substring 0 whole ds
   ++ (match digits with
       | O => ""
       | S _ => "." ++ substring whole digits ds
       end))%string.

(** A stand-in for the locale-dependent [x.toLocaleString()]. *)
Definition Q_toLocaleString (x : Q) : string := Q_toFixed 0 x.

(** A test double for the host's [Math] object in exact arithmetic:
    [Math.round] is exact, the square root (three Newton steps) and the
    power (first order in the exponent) are rational approximations, and
    every random draw is [draw]. *)
Definition Q_sqrt (x : Q) : Q :=
  let step y := Qred ((y + x / y) / 2) in
  step (step (step (Qred ((1 + x) / 2)))).

Definition Q_Math (draw : Q) : ScenarioProjector.MathObject Q :=
  {| ScenarioProjector.Math_sqrt   := Q_sqrt;
     ScenarioProjector.Math_pow    := fun b e => 1 + e * (b - 1);
     ScenarioProjector.Math_round  := fun x => inject_Z (round_half_up x);
     ScenarioProjector.Math_random := fun _ => draw |}%Q.

(** The snapshot of the worked example of the score. *)
Definition example_snapshot {N : Type} `{JsNumber N}
  : ScoreCalculator.AssessmentRequest N :=
  {| ScoreCalculator.monthlyIncome       := lit 5000;
     ScoreCalculator.monthlyExpenses     := lit 3000;
     ScoreCalculator.totalDebt           := lit 10000;
     ScoreCalculator.savingsAmount       := lit 5000;
     ScoreCalculator.emergencyFundMonths := lit 4;
     ScoreCalculator.shortTermGoals      := "x";
     ScoreCalculator.longTermGoals       := "y";
     ScoreCalculator.riskTolerance       := ScoreCalculator.medium |}.

(** A request with a negative income and both goals set. *)
Definition negative_income_request {N : Type} `{JsNumber N}
  : ScoreCalculator.AssessmentRequest N :=
  {| ScoreCalculator.monthlyIncome       := lit (-100);
     ScoreCalculator.monthlyExpenses     := lit 0;
     ScoreCalculator.totalDebt           := lit 0;
     ScoreCalculator.savingsAmount       := lit 0;
     ScoreCalculator.emergencyFundMonths := lit 0;
     ScoreCalculator.shortTermGoals      := "x";
     ScoreCalculator.longTermGoals       := "y";
     ScoreCalculator.riskTolerance       := ScoreCalculator.medium |}.

(** A request with no income. *)
Definition zero_income_request {N : Type} `{JsNumber N}
  : ScoreCalculator.AssessmentRequest N :=
  {| ScoreCalculator.monthlyIncome       := lit 0;
     ScoreCalculator.monthlyExpenses     := lit 0;
     ScoreCalculator.totalDebt           := lit 0;
     ScoreCalculator.savingsAmount       := lit 0;
     ScoreCalculator.emergencyFundMonths := lit 0;
     ScoreCalculator.shortTermGoals      := "x";
     ScoreCalculator.longTermGoals       := "y";
     ScoreCalculator.riskTolerance       := ScoreCalculator.medium |}.

(** The goal of the worked example of the plan: 120000 in ten years,
    from nothing, moderate risk. *)
Definition example_goal {N : Type} `{JsNumber N}
  : GoalPlanProjector.FinancialPlanRequest N :=
  {| GoalPlanProjector.age            := lit 30;
     GoalPlanProjector.income         := lit 60000;
     GoalPlanProjector.currentSavings := lit 0;
     GoalPlanProjector.targetGoal     := GoalPlanProjector.retirement;
     GoalPlanProjector.targetAmount   := lit 120000;
     GoalPlanProjector.timeHorizon    := 10;
     GoalPlanProjector.riskTolerance  := Moderate |}.

(** The simulator's initial form values. *)
Definition example_inputs : ScenarioProjector.SimulationInputs Q :=
  {| ScenarioProjector.initialAmount       := 10000%Q;
     ScenarioProjector.duration            := 10;
     ScenarioProjector.riskTolerance       := Moderate;
     ScenarioProjector.monthlyContribution := Some 0%Q |}.

(** The summary of a tier in the results of a simulation. *)
Definition resultOf {N : Type} (tier : RiskTier)
    (results : ScenarioProjector.SimulationResults N)
  : ScenarioProjector.ScenarioResult N :=
  match tier with
  | Conservative => ScenarioProjector.conservativeResult results
  | Moderate => ScenarioProjector.moderateResult results
  | Aggressive => ScenarioProjector.aggressiveResult results
  end.

(** The maximum drawdown and the volatility of each tier in percent, as
    the specification lists them. *)
Definition tablePercent (tier : RiskTier) : Z * Z :=
  match tier with
  | Conservative => (15, 8)
  | Moderate => (25, 12)
  | Aggressive => (40, 18)
  end.

(** The allocation percentages (stocks, bonds, real estate) of each tier,
    as the specification lists them. *)
Definition allocationPercent (tier : RiskTier) : Q * Q * Q :=
  match tier with
  | Aggressive => (80, 10, 10)
  | Moderate => (60, 30, 10)
  | Conservative => (40, 50, 10)
  end%Q.

(** A list of numbers never decreases from an entry to the next. *)
Fixpoint nondecreasing {N : Type} `{JsNumber N} (xs : list N) : bool :=
  match xs with
  | x :: (y :: _) as rest => (x <=? y)%js && nondecreasing rest
  | _ => true
  end.

(** The wealth form's initial values. *)
Definition example_wealth : WealthProjector.WealthData Q :=
  {| WealthProjector.age                := 35;
     WealthProjector.retirementAge      := 65;
     WealthProjector.currentIncome      := 100000%Q;
     WealthProjector.currentAssets      := 250000%Q;
     WealthProjector.currentLiabilities := 50000%Q;
     WealthProjector.monthlySavings     := 2000%Q;
     WealthProjector.investmentReturn   := 7%Q;
     WealthProjector.taxBracket         := 22%Q;
     WealthProjector.estateValue        := 500000%Q;
     WealthProjector.riskTolerance      := Moderate |}.

(** [{ ...data, totalDebt }], [{ ...data, emergencyFundMonths }] and
    [{ ...data, monthlyExpenses }]: a snapshot with one field replaced. *)
Definition with_totalDebt {N : Type} (data : ScoreCalculator.AssessmentRequest N)
    (debt : N) : ScoreCalculator.AssessmentRequest N :=
  {| ScoreCalculator.monthlyIncome := ScoreCalculator.monthlyIncome data;
     ScoreCalculator.monthlyExpenses := ScoreCalculator.monthlyExpenses data;
     ScoreCalculator.totalDebt := debt;
     ScoreCalculator.savingsAmount := ScoreCalculator.savingsAmount data;
     ScoreCalculator.emergencyFundMonths :=
       ScoreCalculator.emergencyFundMonths data;
     ScoreCalculator.shortTermGoals := ScoreCalculator.shortTermGoals data;
     ScoreCalculator.longTermGoals := ScoreCalculator.longTermGoals data;
     ScoreCalculator.riskTolerance := ScoreCalculator.riskTolerance data |}.

Definition with_emergencyFundMonths {N : Type}
    (data : ScoreCalculator.AssessmentRequest N) (months : N)
  : ScoreCalculator.AssessmentRequest N :=
  {| ScoreCalculator.monthlyIncome := ScoreCalculator.monthlyIncome data;
     ScoreCalculator.monthlyExpenses := ScoreCalculator.monthlyExpenses data;
     ScoreCalculator.totalDebt := ScoreCalculator.totalDebt data;
     ScoreCalculator.savingsAmount := ScoreCalculator.savingsAmount data;
     ScoreCalculator.emergencyFundMonths := months;
     ScoreCalculator.shortTermGoals := ScoreCalculator.shortTermGoals data;
     ScoreCalculator.longTermGoals := ScoreCalculator.longTermGoals data;
     ScoreCalculator.riskTolerance := ScoreCalculator.riskTolerance data |}.

Definition with_monthlyExpenses {N : Type}
    (data : ScoreCalculator.AssessmentRequest N) (expenses : N)
  : ScoreCalculator.AssessmentRequest N :=
  {| ScoreCalculator.monthlyIncome := ScoreCalculator.monthlyIncome data;
     ScoreCalculator.monthlyExpenses := expenses;
     ScoreCalculator.totalDebt := ScoreCalculator.totalDebt data;
     ScoreCalculator.savingsAmount := ScoreCalculator.savingsAmount data;
     ScoreCalculator.emergencyFundMonths :=
       ScoreCalculator.emergencyFundMonths data;
     ScoreCalculator.shortTermGoals := ScoreCalculator.shortTermGoals data;
     ScoreCalculator.longTermGoals := ScoreCalculator.longTermGoals data;
     ScoreCalculator.riskTolerance := ScoreCalculator.riskTolerance data |}.

(** A message that begins with [start] is in the list. *)
Definition flagged (start : string) (messages : list string) : Prop :=
  exists rest : string, In (start ++ rest)%string messages.

(** The fixed texts of the recommendations, in the order of the pushes. *)
Definition savingsAdvice : string :=
  "Increase your monthly savings to at least 10% of income. Review expenses and identify areas to reduce.".
Definition debtAdvice : string :=
  "Create a debt reduction strategy. Focus on paying down high-interest debt first (credit cards, personal loans).".
Definition emergencyAdvice : string :=
  "Build an emergency fund covering 3-6 months of expenses. Set up automatic monthly transfers to savings.".
Definition spendingAdvice : string :=
  "Review and reduce discretionary spending. Create a detailed budget tracking each expense category.".
Definition timelineAdvice : string :=
  "Create a timeline and savings plan for your goals. Break long-term goals into smaller milestones.".
Definition diversifyAdvice : string :=
  "Consider diversifying your savings across high-yield savings accounts and appropriate investments based on your risk tolerance.".

(** A snapshot with the best value in every dimension. *)
Definition perfect_snapshot : ScoreCalculator.AssessmentRequest Q :=
  {| ScoreCalculator.monthlyIncome       := 5000%Q;
     ScoreCalculator.monthlyExpenses     := 2000%Q;
     ScoreCalculator.totalDebt           := 0%Q;
     ScoreCalculator.savingsAmount       := 30000%Q;
     ScoreCalculator.emergencyFundMonths := 8%Q;
     ScoreCalculator.shortTermGoals      := "x";
     ScoreCalculator.longTermGoals       := "y";
     ScoreCalculator.riskTolerance       := ScoreCalculator.low |}.

(** A snapshot in trouble in every dimension. *)
Definition troubled_snapshot : ScoreCalculator.AssessmentRequest Q :=
  {| ScoreCalculator.monthlyIncome       := 3000%Q;
     ScoreCalculator.monthlyExpenses     := 3200%Q;
     ScoreCalculator.totalDebt           := 40000%Q;
     ScoreCalculator.savingsAmount       := 0%Q;
     ScoreCalculator.emergencyFundMonths := 1%Q;
     ScoreCalculator.shortTermGoals      := "";
     ScoreCalculator.longTermGoals       := "";
     ScoreCalculator.riskTolerance       := ScoreCalculator.high |}.

(** The sentence every guidance text opens with. *)
Definition disclaimer : string :=
  "This is general information, not financial advice.".

(** [s.trim()] on a string of bytes: the ASCII white space (space, tab,
    line feed, vertical tab, form feed, carriage return) is removed at both
    ends. *)
Definition isWhiteSpace (c : ascii) : bool :=
  let n := nat_of_ascii c in
  ((n =? 32) || ((9 <=? n) && (n <=? 13)))%nat.

Fixpoint dropWhiteSpace (cs : list ascii) : list ascii :=
  match cs with
  | c :: rest => if isWhiteSpace c then dropWhiteSpace rest else cs
  | [] => []
  end.

Definition ascii_trim (s : string) : string :=
  string_of_list_ascii
    (rev (dropWhiteSpace (rev (dropWhiteSpace (list_ascii_of_string s))))).

(** The sum of a list of exact numbers. *)
Definition sumQ (xs : list Q) : Q := fold_right Qplus 0%Q xs.

(** A month of expenses. *)
Definition example_expenses : list (BudgetAnalyzer.Expense Q) :=
  [ {| BudgetAnalyzer.category := "Rent"; BudgetAnalyzer.amount := 1500%Q |};
    {| BudgetAnalyzer.category := "Food"; BudgetAnalyzer.amount := 600%Q |};
    {| BudgetAnalyzer.category := "Transport";
       BudgetAnalyzer.amount := 250.5%Q |} ].

(** A goal below the current savings: 4000 in one year, from 10000. *)
Definition overfunded_goal : GoalPlanProjector.FinancialPlanRequest Q :=
  {| GoalPlanProjector.age            := 30%Q;
     GoalPlanProjector.income         := 60000%Q;
     GoalPlanProjector.currentSavings := 10000%Q;
     GoalPlanProjector.targetGoal     := GoalPlanProjector.home;
     GoalPlanProjector.targetAmount   := 4000%Q;
     GoalPlanProjector.timeHorizon    := 1;
     GoalPlanProjector.riskTolerance  := Conservative |}.

(** Simulator inputs with a negative and with a zero duration. *)
Definition negative_duration_inputs : ScenarioProjector.SimulationInputs Q :=
  {| ScenarioProjector.initialAmount       := 10000%Q;
     ScenarioProjector.duration            := -5;
     ScenarioProjector.riskTolerance       := Moderate;
     ScenarioProjector.monthlyContribution := None |}.

Definition zero_duration_inputs : ScenarioProjector.SimulationInputs Q :=
  {| ScenarioProjector.initialAmount       := 10000%Q;
     ScenarioProjector.duration            := 0;
     ScenarioProjector.riskTolerance       := Moderate;
     ScenarioProjector.monthlyContribution := Some 100%Q |}.

(** The wealth form's initial values with no return on investment. *)
Definition zero_return_wealth : WealthProjector.WealthData Q :=
  {| WealthProjector.age                := 35;
     WealthProjector.retirementAge      := 65;
     WealthProjector.currentIncome      := 100000%Q;
     WealthProjector.currentAssets      := 250000%Q;
     WealthProjector.currentLiabilities := 50000%Q;
     WealthProjector.monthlySavings     := 2000%Q;
     WealthProjector.investmentReturn   := 0%Q;
     WealthProjector.taxBracket         := 22%Q;
     WealthProjector.estateValue        := 500000%Q;
     WealthProjector.riskTolerance      := Moderate |}.

(** The three running balances of a projection are not negative. *)
Definition nonnegative (b : ScenarioProjector.Balances Q) : Prop :=
  (0 <= ScenarioProjector.conservativeValue b)%Q
  /\ (0 <= ScenarioProjector.moderateValue b)%Q
  /\ (0 <= ScenarioProjector.aggressiveValue b)%Q.

(** * Properties *)

(** ** Number models *)

Lemma round_half_up_inject_Z (z : Z) : round_half_up (inject_Z z) = z.
Proof.
  unfold round_half_up.
  pose proof (Qfloor_le (inject_Z z + (1 # 2))) as Hlo.
  pose proof (Qlt_floor (inject_Z z + (1 # 2))) as Hhi.
  set (f := Qfloor (inject_Z z + (1 # 2))) in *.
  assert (Hz : (inject_Z z + (1 # 2) < inject_Z (z + 1))%Q).
  { rewrite inject_Z_plus. change (inject_Z 1) with 1%Q. lra. }
  assert (H1 : (inject_Z f < inject_Z (z + 1))%Q) by (eapply Qle_lt_trans; eassumption).
  assert (H2 : (inject_Z z < inject_Z (f + 1))%Q).
  { eapply Qle_lt_trans; [| exact Hhi]. lra. }
  rewrite <- Zlt_Qlt in H1, H2. lia.
Qed.

(** In exact arithmetic a number is falsy exactly when it is zero. *)
Lemma Exact_truthy (x : Q) : truthy x = false <-> (x == 0)%Q.
Proof.
  cbn. rewrite negb_false_iff. apply Qeq_bool_iff.
Qed.

(** ** ScoreCalculator *)

Section ScoreProperties.

Import ScoreCalculator.

Context {N : Type} `{JsNumber N}.

Lemma savingsRateScore_range (r : N) : 0 <= savingsRateScore r <= 25.
Proof.
  unfold savingsRateScore.
  repeat match goal with |- context [if ?c then _ else _] => destruct c end;
    lia.
Qed.

Lemma debtManagementScore_range (r : N) : 5 <= debtManagementScore r <= 25.
Proof.
  unfold debtManagementScore.
  repeat match goal with |- context [if ?c then _ else _] => destruct c end;
    lia.
Qed.

Lemma emergencyFundScore_range (m : N) : 0 <= emergencyFundScore m <= 20.
Proof.
  unfold emergencyFundScore.
  repeat match goal with |- context [if ?c then _ else _] => destruct c end;
    lia.
Qed.

Lemma expenseManagementScore_range (r : N) :
  3 <= expenseManagementScore r <= 15.
Proof.
  unfold expenseManagementScore.
  repeat match goal with |- context [if ?c then _ else _] => destruct c end;
    lia.
Qed.

Lemma goalPlanningScore_range (s l : string) : 0 <= goalPlanningScore s l <= 15.
Proof.
  unfold goalPlanningScore.
  destruct (str_truthy s), (str_truthy l); simpl; lia.
Qed.

(** The rounding of the total leaves the integer sum as it is. *)
Lemma totalScoreOf_sum (scores : Scores) :
  totalScoreOf scores
  = savingsRate scores + debtManagement scores + emergencyFund scores
    + expenseManagement scores + goalPlanning scores.
Proof.
  unfold totalScoreOf. apply round_half_up_inject_Z.
Qed.

Lemma score_range (fmt : nat -> N -> string) (data : AssessmentRequest N) :
  8 <= score (calculateFinancialScore fmt data) <= 100.
Proof.
  cbn [calculateFinancialScore score]. rewrite totalScoreOf_sum.
  cbn [computeScores savingsRate debtManagement emergencyFund
       expenseManagement goalPlanning].
  pose proof (savingsRateScore_range (savingsRateOf data)).
  pose proof (debtManagementScore_range (debtToIncomeRatioOf data)).
  pose proof (emergencyFundScore_range (emergencyFundMonths data)).
  pose proof (expenseManagementScore_range (expenseRatioOf data)).
  pose proof (goalPlanningScore_range (shortTermGoals data) (longTermGoals data)).
  lia.
Qed.

Lemma categoryOf_thresholds (totalScore : Z) :
  (categoryOf totalScore = excellent <-> 80 <= totalScore)
  /\ (categoryOf totalScore = good <-> 60 <= totalScore < 80)
  /\ (categoryOf totalScore = fair <-> 40 <= totalScore < 60)
  /\ (categoryOf totalScore = poor <-> totalScore < 40).
Proof.
  unfold categoryOf.
  destruct (Z.geb_spec totalScore 80); [| destruct (Z.geb_spec totalScore 60);
    [| destruct (Z.geb_spec totalScore 40)]];
    repeat split; intros; try discriminate; try lia.
Qed.

End ScoreProperties.

Section ScoreClaims.

Import ScoreCalculator.

(** C1: on the snapshot income 5000, expenses 3000, debt 10000, savings
    5000, emergency fund 4 months, goals "x" and "y", risk medium, the
    sub-scores are 25 (savings rate), 25 (debt management), 16 (emergency
    fund), 12 (expense ratio) and 15 (goal planning), the score is 93 and
    the category is excellent; in exact arithmetic and in binary64 alike. *)
Theorem C1_example_scores :
  (computeScores (N := Q) example_snapshot
     = {| savingsRate := 25; debtManagement := 25; emergencyFund := 16;
          expenseManagement := 12; goalPlanning := 15 |}
   /\ forall fmt,
        score (calculateFinancialScore fmt (N := Q) example_snapshot) = 93
        /\ category (calculateFinancialScore fmt (N := Q) example_snapshot)
           = excellent)
  /\
  (computeScores (N := PrimFloat.float) example_snapshot
     = {| savingsRate := 25; debtManagement := 25; emergencyFund := 16;
          expenseManagement := 12; goalPlanning := 15 |}
   /\ forall fmt,
        score (calculateFinancialScore fmt (N := PrimFloat.float)
                 example_snapshot) = 93
        /\ category (calculateFinancialScore fmt (N := PrimFloat.float)
                       example_snapshot) = excellent).
Proof.
  repeat split; vm_compute; reflexivity.
Qed.

(** C3: for every snapshot with a positive monthly income and the other
    numeric fields non-negative, in every number model, the score lies
    between 0 and 100, and the category is excellent iff the score is at
    least 80, good iff it is in [60, 80), fair iff it is in [40, 60), and
    poor iff it is below 40. *)
Theorem C3_score_range_and_category {N : Type} `{JsNumber N}
    (fmt : nat -> N -> string) (data : AssessmentRequest N) :
  (monthlyIncome data >? lit 0)%js = true ->
  (monthlyExpenses data >=? lit 0)%js = true ->
  (totalDebt data >=? lit 0)%js = true ->
  (savingsAmount data >=? lit 0)%js = true ->
  (emergencyFundMonths data >=? lit 0)%js = true ->
  let result := calculateFinancialScore fmt data in
  0 <= score result <= 100
  /\ (category result = excellent <-> 80 <= score result)
  /\ (category result = good <-> 60 <= score result < 80)
  /\ (category result = fair <-> 40 <= score result < 60)
  /\ (category result = poor <-> score result < 40).
Proof.
  intros _ _ _ _ _ result.
  split.
  - pose proof (score_range fmt data). subst result. lia.
  - exact (categoryOf_thresholds (score result)).
Qed.

Lemma C3_score_range_and_category_witness :
  let result := calculateFinancialScore Q_toFixed (N := Q) example_snapshot in
  0 <= score result <= 100
  /\ (category result = excellent <-> 80 <= score result)
  /\ (category result = good <-> 60 <= score result < 80)
  /\ (category result = fair <-> 40 <= score result < 60)
  /\ (category result = poor <-> score result < 40).
Proof.
  apply (C3_score_range_and_category Q_toFixed (N := Q) example_snapshot);
    reflexivity.
Defined.

(** C9: for every input with a positive monthly income, in every number
    model, the debt-management sub-score is at least 5, the
    expense-management sub-score is at least 3 and the score is at least
    8; a poor result has its score in [8, 40). *)
Theorem C9_score_at_least_8 {N : Type} `{JsNumber N}
    (fmt : nat -> N -> string) (data : AssessmentRequest N) :
  (monthlyIncome data >? lit 0)%js = true ->
  5 <= debtManagement (computeScores data)
  /\ 3 <= expenseManagement (computeScores data)
  /\ 8 <= score (calculateFinancialScore fmt data)
  /\ (category (calculateFinancialScore fmt data) = poor ->
      8 <= score (calculateFinancialScore fmt data) < 40).
Proof.
  intros _.
  pose proof (score_range fmt data) as Hs.
  repeat split.
  - apply debtManagementScore_range.
  - apply expenseManagementScore_range.
  - lia.
  - lia.
  - now apply (categoryOf_thresholds (score (calculateFinancialScore fmt data))).
Qed.

Lemma C9_score_at_least_8_witness :
  5 <= debtManagement (computeScores (N := Q) example_snapshot)
  /\ 3 <= expenseManagement (computeScores (N := Q) example_snapshot)
  /\ 8 <= score (calculateFinancialScore Q_toFixed (N := Q) example_snapshot)
  /\ (category (calculateFinancialScore Q_toFixed (N := Q) example_snapshot)
        = poor ->
      8 <= score (calculateFinancialScore Q_toFixed (N := Q) example_snapshot)
        < 40).
Proof.
  apply (C9_score_at_least_8 Q_toFixed (N := Q) example_snapshot).
  reflexivity.
Defined.

(** C10: for every input, in every number model, the list of
    recommendations is not empty: it holds the timeline message when at
    least one of the two goals is set and the goal-definition message when
    neither is. *)
Theorem C10_recommendations_nonempty {N : Type} `{JsNumber N}
    (fmt : nat -> N -> string) (data : AssessmentRequest N) :
  recommendations (calculateFinancialScore fmt data) <> []
  /\ In (if str_truthy (shortTermGoals data) || str_truthy (longTermGoals data)
         then "Create a timeline and savings plan for your goals. Break long-term goals into smaller milestones."%string
         else "Define clear short and long-term financial goals. Having specific targets helps motivate saving and investing."%string)
        (recommendations (calculateFinancialScore fmt data)).
Proof.
  assert (Hin : In (if str_truthy (shortTermGoals data)
                       || str_truthy (longTermGoals data)
         then "Create a timeline and savings plan for your goals. Break long-term goals into smaller milestones."%string
         else "Define clear short and long-term financial goals. Having specific targets helps motivate saving and investing."%string)
        (recommendations (calculateFinancialScore fmt data))).
  { cbn [calculateFinancialScore recommendations]. unfold recommendationsOf.
    do 4 (apply in_or_app; right).
    apply in_or_app; left.
    destruct (str_truthy (shortTermGoals data) || str_truthy (longTermGoals data));
      left; reflexivity. }
  split; [| exact Hin].
  intros Hnil. rewrite Hnil in Hin. exact Hin.
Qed.

End ScoreClaims.

Section HandlerClaims.

Import ScoreCalculator.

(** C8, as the claim states it, fails: a request with the negative
    monthly income -100 and both goals set is answered with status 200 and
    a scored result (score 80, excellent), in exact arithmetic and in
    binary64. *)
Lemma C8_negative_income_is_scored :
  (monthlyIncome (N := Q) negative_income_request <= 0)%Q
  /\ (exists result,
        serve Q_toFixed (N := Q) "POST" (inr negative_income_request)
          = {| status := 200; payload := ResultBody result |}
        /\ score result = 80 /\ category result = excellent)
  /\ (forall fmt,
      exists result,
        serve fmt (N := PrimFloat.float) "POST" (inr negative_income_request)
          = {| status := 200; payload := ResultBody result |}
        /\ score result = 80 /\ category result = excellent).
Proof.
  split; [| split].
  - vm_compute. discriminate.
  - eexists. split; [reflexivity |]. split; vm_compute; reflexivity.
  - intros fmt. eexists. split; [reflexivity |]. split; vm_compute; reflexivity.
Qed.

(** C8, amended: for every assessment request (a method other than
    OPTIONS) whose monthly income is falsy, which in exact arithmetic
    means zero, the handler answers with the 400 error "Missing required
    fields" and no result; and whenever the handler answers with a result,
    the monthly income is truthy, both goals are set, and the result is
    the calculator's. *)
Theorem C8_falsy_income_rejected {N : Type} `{JsNumber N}
    (fmt : nat -> N -> string) (method : string)
    (data : AssessmentRequest N) :
  method <> "OPTIONS"%string ->
  (truthy (monthlyIncome data) = false ->
   serve fmt method (inr data)
   = {| status := 400;
        payload := ErrorBody "Missing required fields" None |})
  /\ (forall result,
        payload (serve fmt method (inr data)) = ResultBody result ->
        truthy (monthlyIncome data) = true
        /\ str_truthy (shortTermGoals data) = true
        /\ str_truthy (longTermGoals data) = true
        /\ result = calculateFinancialScore fmt data).
Proof.
  intros Hmethod. apply String.eqb_neq in Hmethod.
  unfold serve. rewrite Hmethod. split.
  - intros Hfalsy. rewrite Hfalsy. reflexivity.
  - intros result.
    destruct (truthy (monthlyIncome data)),
             (str_truthy (shortTermGoals data)),
             (str_truthy (longTermGoals data)); cbn; intros Hres;
      try discriminate.
    injection Hres as <-. repeat split.
Qed.

Lemma C8_falsy_income_rejected_witness :
  (monthlyIncome (N := Q) zero_income_request == 0)%Q
  /\ serve Q_toFixed (N := Q) "POST" (inr zero_income_request)
     = {| status := 400;
          payload := ErrorBody "Missing required fields" None |}.
Proof.
  split; [reflexivity |].
  apply (C8_falsy_income_rejected Q_toFixed (N := Q) "POST"
           zero_income_request); [discriminate | reflexivity].
Defined.

End HandlerClaims.

(** ** GoalPlanProjector *)

Section GoalPlanProperties.

Import GoalPlanProjector.

Lemma monthsUpTo_nth_error (n : Z) (i : nat) (m : Z) :
  nth_error (monthsUpTo n) i = Some m -> m = Z.of_nat i + 1.
Proof.
  unfold monthsUpTo. rewrite nth_error_map.
  destruct (nth_error (seq 1 (Z.to_nat n)) i) as [k |] eqn:Hk; [| discriminate].
  intros [= <-].
  assert (Hlt : (i < length (seq 1 (Z.to_nat n)))%nat).
  { apply nth_error_Some. congruence. }
  rewrite length_seq in Hlt.
  apply (nth_error_nth _ _ 0%nat) in Hk.
  rewrite seq_nth in Hk by exact Hlt. lia.
Qed.

Lemma monthsUpTo_length (n : Z) : length (monthsUpTo n) = Z.to_nat n.
Proof.
  unfold monthsUpTo. now rewrite length_map, length_seq.
Qed.

(** Every entry of the plan is the loop body at its month, and the months
    run from 1 on. *)
Lemma monthlyPlans_nth_error {N : Type} `{JsNumber N}
    (fmt : nat -> N -> string) (loc : N -> string)
    (request : FinancialPlanRequest N) (i : nat) (p : MonthlyPlan N) :
  nth_error (monthlyPlans (generateMockFinancialPlan fmt loc request)) i
  = Some p ->
  p = monthlyPlanAt request (monthlySavingsOf request) (Z.of_nat i + 1).
Proof.
  cbn [generateMockFinancialPlan monthlyPlans]. rewrite nth_error_map.
  destruct (nth_error (monthsUpTo (timeHorizon request * 12)) i) as [m |] eqn:Hm;
    [| discriminate].
  intros [= <-]. now rewrite (monthsUpTo_nth_error _ _ _ Hm).
Qed.

(** With a target at or above the current savings and a positive horizon
    the monthly contribution is not negative. *)
Lemma monthlySavingsOf_nonneg (request : FinancialPlanRequest Q) :
  0 < timeHorizon request ->
  (currentSavings request <= targetAmount request)%Q ->
  (0 <= monthlySavingsOf request)%Q.
Proof.
  intros Hth Hle. unfold monthlySavingsOf. cbn.
  apply Qle_shift_div_l.
  - assert (0 < inject_Z (timeHorizon request))%Q
      by (change 0%Q with (inject_Z 0); now rewrite <- Zlt_Qlt).
    lra.
  - lra.
Qed.

End GoalPlanProperties.

Section GoalPlanClaims.

Import GoalPlanProjector.

(** C2, as the claim states it, fails: for the goal 120000 in ten years
    from nothing at moderate risk, the entry of month 120 has the total
    120000, not 120240. *)
Lemma C2_total_is_not_120240 :
  exists p,
    nth_error (monthlyPlans (generateMockFinancialPlan Q_toFixed
                               Q_toLocaleString (N := Q) example_goal)) 119
    = Some p
    /\ month p = 120
    /\ (total p == 120000)%Q
    /\ ~ (total p == 120240)%Q.
Proof.
  eexists. split; [vm_compute; reflexivity |].
  split; [reflexivity |].
  split; [reflexivity | discriminate].
Qed.

(** C2, amended: for the goal 120000 in ten years from nothing at moderate
    risk, the monthly savings are 1000 and the entry of month 120 has
    total = currentSavings + monthlySavings * 0.6 * 120
            + monthlySavings * 0.4 * 120 = 120000,
    in exact arithmetic and in binary64; the bonus factor 1.005 is applied
    to the investments field only, which is 48240 in exact arithmetic. *)
Theorem C2_example_plan :
  (forall fmt loc,
     (monthlySavingsOf (N := Q) example_goal == 1000)%Q
     /\ exists p,
          nth_error (monthlyPlans (generateMockFinancialPlan fmt loc (N := Q)
                                     example_goal)) 119 = Some p
          /\ month p = 120
          /\ (total p == 0 + 1000 * 0.6 * 120 + 1000 * 0.4 * 120)%Q
          /\ (total p == 120000)%Q
          /\ (investments p == 1000 * 0.4 * 120 * 1.005)%Q
          /\ (investments p == 48240)%Q)
  /\
  (forall fmt loc,
     monthlySavingsOf (N := PrimFloat.float) example_goal = lit 1000
     /\ exists p,
          nth_error (monthlyPlans (generateMockFinancialPlan fmt loc
                                     (N := PrimFloat.float) example_goal)) 119
          = Some p
          /\ month p = 120
          /\ total p = lit 120000).
Proof.
  split; intros fmt loc.
  - split; [reflexivity |].
    eexists. split; [vm_compute; reflexivity |].
    repeat split.
  - split; [vm_compute; reflexivity |].
    eexists. split; [vm_compute; reflexivity |].
    split; vm_compute; reflexivity.
Qed.



(** In binary64 the totals of the worked example never decrease either. *)
Lemma example_plan_totals_binary64 (fmt : nat -> PrimFloat.float -> string)
    (loc : PrimFloat.float -> string) :
  nondecreasing
    (map total (monthlyPlans (generateMockFinancialPlan fmt loc example_goal)))
  = true.
Proof.
  vm_compute. reflexivity.
Qed.

End GoalPlanClaims.

(** ** ScenarioProjector *)

Section ScenarioProperties.

Import ScenarioProjector.

Context {N : Type} `{JsNumber N}.

Variable Math : MathObject N.

Lemma yearLoop_length (turns : nat) : forall year mr mv mc st,
  length (fst (yearLoop Math turns year mr mv mc st)) = turns.
Proof.
  induction turns as [| turns IH]; intros year mr mv mc st; [reflexivity |].
  cbn [yearLoop]. destruct (year =? 0).
  - specialize (IH (year + 1) mr mv mc st).
    destruct (yearLoop Math turns (year + 1) mr mv mc st) as [rest k].
    cbn in *. now rewrite IH.
  - specialize (IH (year + 1) mr mv mc (monthLoop Math 12 mr mv mc st)).
    destruct (yearLoop Math turns (year + 1) mr mv mc
                (monthLoop Math 12 mr mv mc st)) as [rest k].
    cbn in *. now rewrite IH.
Qed.

Lemma yearLoop_years (turns : nat) : forall year mr mv mc st i p,
  nth_error (fst (yearLoop Math turns year mr mv mc st)) i = Some p ->
  ScenarioProjector.year p = year + Z.of_nat i.
Proof.
  induction turns as [| turns IH]; intros year mr mv mc st i p.
  - destruct i; discriminate.
  - cbn [yearLoop]. destruct (year =? 0).
    + specialize (IH (year + 1) mr mv mc st).
      destruct (yearLoop Math turns (year + 1) mr mv mc st) as [rest k].
      destruct i as [| i]; cbn in *.
      * intros [= <-]. cbn. lia.
      * intros Hp. rewrite (IH _ _ Hp). lia.
    + specialize (IH (year + 1) mr mv mc (monthLoop Math 12 mr mv mc st)).
      destruct (yearLoop Math turns (year + 1) mr mv mc
                  (monthLoop Math 12 mr mv mc st)) as [rest k].
      destruct i as [| i]; cbn in *.
      * intros [= <-]. cbn. lia.
      * intros Hp. rewrite (IH _ _ Hp). lia.
Qed.

Lemma calculateProjection_length initialAmount duration scenario mc k :
  length (fst (calculateProjection Math initialAmount duration scenario mc k))
  = Z.to_nat (duration + 1).
Proof.
  unfold calculateProjection. apply yearLoop_length.
Qed.

(** The first turn of the loop pushes the initial amount, untouched. *)
Lemma calculateProjection_head initialAmount duration scenario mc k :
  0 <= duration ->
  nth_error
    (fst (calculateProjection Math initialAmount duration scenario mc k)) 0
  = Some {| year := 0; conservative := initialAmount;
            moderate := initialAmount; aggressive := initialAmount |}.
Proof.
  intros Hd. unfold calculateProjection.
  destruct (Z.to_nat (duration + 1)) as [| turns] eqn:Hturns; [lia |].
  cbn [yearLoop Z.eqb].
  match goal with
  | |- context [yearLoop Math turns ?y ?a ?b ?c ?s] =>
      destruct (yearLoop Math turns y a b c s) as [rest k']
  end.
  reflexivity.
Qed.

Lemma combineFrom_Some :
  forall (cs ms aps : list (ProjectionData N)) (index : Z),
    length ms = length cs -> length aps = length cs ->
    exists combined, combineFrom index cs ms aps = Some combined.
Proof.
  induction cs as [| c cs IH]; intros ms aps index Hm Ha.
  - now exists [].
  - destruct ms as [| m ms]; [discriminate |].
    destruct aps as [| a aps]; [discriminate |].
    cbn in Hm, Ha.
    destruct (IH ms aps (index + 1)) as [rest Hrest]; [lia | lia |].
    cbn [combineFrom]. rewrite Hrest. now eexists.
Qed.

(** On a non-empty series the summary of a tier exists, with the
    statistics written out. *)
Lemma calculateScenarioResults_Some initialAmount
    (projections : list (ProjectionData N)) (scenario : RiskTier) :
  projections <> [] ->
  exists r,
    calculateScenarioResults Math initialAmount projections scenario = Some r
    /\ annualizedReturn r
       = ((Math_pow Math (finalValue r / initialAmount)
             (lit 1 / of_Z (Z.of_nat (length projections)))
           - lit 1) * lit 100)%js
    /\ maxDrawdown r
       = (assumedDrawdown (FINANCIAL_ASSUMPTIONS scenario) * lit 100)%js
    /\ volatility r
       = (assumedVolatility (FINANCIAL_ASSUMPTIONS scenario) * lit 100)%js.
Proof.
  intros Hne. unfold calculateScenarioResults.
  destruct (rev projections) as [| lastProjection others] eqn:Hrev.
  - apply (f_equal (@rev _)) in Hrev. rewrite rev_involutive in Hrev.
    contradiction.
  - eexists. split; [reflexivity |]. cbn. repeat split.
Qed.

(** The combined series takes its length and its first entry's balances
    from the three series, and numbers its entries from [index] on. *)
Lemma combineFrom_spec :
  forall (cs ms aps combined : list (ProjectionData N)) (index : Z),
    combineFrom index cs ms aps = Some combined ->
    length combined = length cs
    /\ (forall i p, nth_error combined i = Some p ->
          ScenarioProjector.year p = index + Z.of_nat i)
    /\ (forall c m a, nth_error cs 0 = Some c -> nth_error ms 0 = Some m ->
          nth_error aps 0 = Some a ->
          exists p, nth_error combined 0 = Some p
                    /\ conservative p = conservative c
                    /\ moderate p = moderate m
                    /\ aggressive p = aggressive a).
Proof.
  induction cs as [| c cs IH]; intros ms aps combined index.
  - intros [= <-]. split; [reflexivity |]. split.
    + intros [| i] p; discriminate.
    + intros c m a; discriminate.
  - cbn [combineFrom]. destruct ms as [| m ms]; [discriminate |].
    destruct aps as [| a aps]; [discriminate |].
    destruct (combineFrom (index + 1) cs ms aps) as [rest |] eqn:Hrest;
      [| discriminate].
    intros [= <-]. destruct (IH _ _ _ _ Hrest) as (Hlen & Hyears & _).
    split; [cbn; now rewrite Hlen |]. split.
    + intros [| i] p; cbn.
      * intros [= <-]. cbn. lia.
      * intros Hp. rewrite (Hyears _ _ Hp). lia.
    + intros c0 m0 a0 [= <-] [= <-] [= <-]. eexists. split; [reflexivity |].
      repeat split.
Qed.

(** The series that the component shows has the shape of the series of
    [calculateProjection]: duration + 1 entries numbered from 0, the first
    one holding the initial amount. *)
Lemma runSimulation_projections (inputs : SimulationInputs N) (k : nat) :
  0 <= duration inputs ->
  exists results,
    fst (runSimulation Math inputs k) = Some results
    /\ Z.of_nat (length (projections results)) = duration inputs + 1
    /\ (forall i p, nth_error (projections results) i = Some p ->
          ScenarioProjector.year p = Z.of_nat i)
    /\ exists first,
         nth_error (projections results) 0 = Some first
         /\ conservative first = initialAmount inputs
         /\ moderate first = initialAmount inputs
         /\ aggressive first = initialAmount inputs.
Proof.
  intros Hd. unfold runSimulation.
  set (mc := orZero (monthlyContribution inputs)).
  destruct (calculateProjection Math (initialAmount inputs) (duration inputs)
              (riskTolerance inputs) mc k) as [unused k1].
  pose proof (calculateProjection_length (initialAmount inputs)
                (duration inputs) Conservative mc k1) as Hc.
  pose proof (calculateProjection_head (initialAmount inputs)
                (duration inputs) Conservative mc k1 Hd) as Hc0.
  destruct (calculateProjection Math (initialAmount inputs) (duration inputs)
              Conservative mc k1) as [cs k2].
  pose proof (calculateProjection_length (initialAmount inputs)
                (duration inputs) Moderate mc k2) as Hm.
  pose proof (calculateProjection_head (initialAmount inputs)
                (duration inputs) Moderate mc k2 Hd) as Hm0.
  destruct (calculateProjection Math (initialAmount inputs) (duration inputs)
              Moderate mc k2) as [ms k3].
  pose proof (calculateProjection_length (initialAmount inputs)
                (duration inputs) Aggressive mc k3) as Ha.
  pose proof (calculateProjection_head (initialAmount inputs)
                (duration inputs) Aggressive mc k3 Hd) as Ha0.
  destruct (calculateProjection Math (initialAmount inputs) (duration inputs)
              Aggressive mc k3) as [aps k4].
  cbn [fst] in Hc, Hm, Ha, Hc0, Hm0, Ha0.
  destruct (combineFrom_Some cs ms aps 0) as [combined Hcomb];
    [congruence | congruence |].
  destruct (combineFrom_spec _ _ _ _ _ Hcomb) as (Hlen & Hyears & Hfirst).
  destruct (Hfirst _ _ _ Hc0 Hm0 Ha0) as (first & Hf & Hfc & Hfm & Hfa).
  assert (Hne : forall l : list (ProjectionData N),
             length l = Z.to_nat (duration inputs + 1) -> l <> []).
  { intros l Hl ->. cbn in Hl. lia. }
  destruct (calculateScenarioResults_Some (initialAmount inputs)
              cs Conservative (Hne _ Hc)) as (rc & Hrc & _).
  destruct (calculateScenarioResults_Some (initialAmount inputs)
              ms Moderate (Hne _ Hm)) as (rm & Hrm & _).
  destruct (calculateScenarioResults_Some (initialAmount inputs)
              aps Aggressive (Hne _ Ha)) as (ra & Hra & _).
  rewrite Hcomb, Hrc, Hrm, Hra. cbn [fst].
  eexists. split; [reflexivity |]. cbn [projections].
  split; [rewrite Hlen, Hc; lia |]. split.
  - intros i p Hp. rewrite (Hyears _ _ Hp). lia.
  - exists first. now repeat split.
Qed.

End ScenarioProperties.

Section ScenarioClaims.

Import ScenarioProjector.

(** C4: for every run of the simulator with a positive initial amount and
    a duration of at least one year, in every number model and for every
    host Math object and random source, each tier's annualized return is
    ((finalValue / initialAmount) ^ (1 / (duration + 1)) - 1) * 100, and
    each tier's maximum drawdown and volatility are the entries of the
    assumption table times 100, whatever the simulated path; these are 15
    and 8 (conservative), 25 and 12 (moderate), 40 and 18 (aggressive), in
    exact arithmetic and in binary64. *)
Theorem C4_scenario_statistics {N : Type} `{JsNumber N}
    (Math : MathObject N) (inputs : SimulationInputs N) (k : nat) :
  (initialAmount inputs >? lit 0)%js = true ->
  1 <= duration inputs ->
  (exists results,
     fst (runSimulation Math inputs k) = Some results
     /\ forall tier,
          let r := resultOf tier results in
          annualizedReturn r
          = ((Math_pow Math (finalValue r / initialAmount inputs)
                (lit 1 / of_Z (duration inputs + 1))
              - lit 1) * lit 100)%js
          /\ maxDrawdown r
             = (assumedDrawdown (FINANCIAL_ASSUMPTIONS tier) * lit 100)%js
          /\ volatility r
             = (assumedVolatility (FINANCIAL_ASSUMPTIONS tier) * lit 100)%js)
  /\ (forall tier,
        (assumedDrawdown (FINANCIAL_ASSUMPTIONS (N := Q) tier) * 100
         == inject_Z (fst (tablePercent tier)))%Q
        /\ (assumedVolatility (FINANCIAL_ASSUMPTIONS (N := Q) tier) * 100
            == inject_Z (snd (tablePercent tier)))%Q)
  /\ (forall tier,
        (assumedDrawdown (FINANCIAL_ASSUMPTIONS (N := PrimFloat.float) tier)
         * lit 100)%js = of_Z (fst (tablePercent tier))
        /\ (assumedVolatility (FINANCIAL_ASSUMPTIONS (N := PrimFloat.float) tier)
            * lit 100)%js = of_Z (snd (tablePercent tier))).
Proof.
  intros _ Hd. split; [| split].
  - unfold runSimulation.
    set (mc := orZero (monthlyContribution inputs)).
    destruct (calculateProjection Math (initialAmount inputs) (duration inputs)
                (riskTolerance inputs) mc k) as [unused k1].
    pose proof (calculateProjection_length Math (initialAmount inputs)
                  (duration inputs) Conservative mc k1) as Hc.
    destruct (calculateProjection Math (initialAmount inputs) (duration inputs)
                Conservative mc k1) as [cs k2].
    pose proof (calculateProjection_length Math (initialAmount inputs)
                  (duration inputs) Moderate mc k2) as Hm.
    destruct (calculateProjection Math (initialAmount inputs) (duration inputs)
                Moderate mc k2) as [ms k3].
    pose proof (calculateProjection_length Math (initialAmount inputs)
                  (duration inputs) Aggressive mc k3) as Ha.
    destruct (calculateProjection Math (initialAmount inputs) (duration inputs)
                Aggressive mc k3) as [aps k4].
    cbn [fst] in Hc, Hm, Ha.
    destruct (combineFrom_Some cs ms aps 0) as [combined Hcomb];
      [congruence | congruence |].
    assert (Hlen : forall l : list (ProjectionData N),
               length l = Z.to_nat (duration inputs + 1) ->
               l <> [] /\ Z.of_nat (length l) = duration inputs + 1).
    { intros l Hl. split; [intros ->; cbn in Hl; lia | lia]. }
    destruct (Hlen _ Hc) as [Hcne Hclen].
    destruct (Hlen _ Hm) as [Hmne Hmlen].
    destruct (Hlen _ Ha) as [Hane Halen].
    destruct (calculateScenarioResults_Some Math (initialAmount inputs)
                cs Conservative Hcne) as (rc & Hrc & Hc1 & Hc2 & Hc3).
    destruct (calculateScenarioResults_Some Math (initialAmount inputs)
                ms Moderate Hmne) as (rm & Hrm & Hm1 & Hm2 & Hm3).
    destruct (calculateScenarioResults_Some Math (initialAmount inputs)
                aps Aggressive Hane) as (ra & Hra & Ha1 & Ha2 & Ha3).
    rewrite Hcomb, Hrc, Hrm, Hra. cbn [fst].
    eexists. split; [reflexivity |].
    rewrite Hclen in Hc1. rewrite Hmlen in Hm1. rewrite Halen in Ha1.
    intros [| |]; cbn [resultOf conservativeResult moderateResult
                         aggressiveResult]; repeat split; assumption.
  - intros [| |]; split; reflexivity.
  - intros [| |]; split; vm_compute; reflexivity.
Qed.

Lemma C4_scenario_statistics_witness :
  exists results,
    fst (runSimulation (Q_Math 0.5) example_inputs 0) = Some results
    /\ forall tier,
         let r := resultOf tier results in
         annualizedReturn r
         = ((Math_pow (Q_Math 0.5)
               (finalValue r / initialAmount example_inputs)
               (lit 1 / of_Z (duration example_inputs + 1))
             - lit 1) * lit 100)%js
         /\ maxDrawdown r
            = (assumedDrawdown (FINANCIAL_ASSUMPTIONS tier) * lit 100)%js
         /\ volatility r
            = (assumedVolatility (FINANCIAL_ASSUMPTIONS tier) * lit 100)%js.
Proof.
  apply (C4_scenario_statistics (Q_Math 0.5) example_inputs 0).
  - reflexivity.
  - vm_compute. discriminate.
Defined.

(** C5: for every non-negative whole duration, every initial amount and
    every monthly contribution, in every number model and for every host
    Math object and random source, the series of [calculateProjection] has
    duration + 1 entries, the entry at index k has year k, and the entry
    of year 0 holds the initial amount in its three tier fields. *)
Theorem C5_projection_series {N : Type} `{JsNumber N}
    (Math : MathObject N) (initialAmount : N) (duration : Z)
    (scenario : RiskTier) (monthlyContribution : N) (k : nat) :
  0 <= duration ->
  let series :=
    fst (calculateProjection Math initialAmount duration scenario
           monthlyContribution k) in
  Z.of_nat (length series) = duration + 1
  /\ (forall i p, nth_error series i = Some p -> year p = Z.of_nat i)
  /\ exists first,
       nth_error series 0 = Some first
       /\ year first = 0
       /\ conservative first = initialAmount
       /\ moderate first = initialAmount
       /\ aggressive first = initialAmount.
Proof.
  intros Hd series. subst series. split; [| split].
  - rewrite calculateProjection_length. lia.
  - intros i p Hp. unfold calculateProjection in Hp.
    now rewrite (yearLoop_years _ _ _ _ _ _ _ _ _ Hp).
  - eexists. split; [now apply calculateProjection_head |]. repeat split.
Qed.

Lemma C5_projection_series_witness :
  let series :=
    fst (calculateProjection (Q_Math 0.5) 10000%Q 10 Moderate 100%Q 0) in
  Z.of_nat (length series) = 10 + 1
  /\ (forall i p, nth_error series i = Some p -> year p = Z.of_nat i)
  /\ exists first,
       nth_error series 0 = Some first
       /\ year first = 0
       /\ conservative first = 10000%Q
       /\ moderate first = 10000%Q
       /\ aggressive first = 10000%Q.
Proof.
  apply (C5_projection_series (Q_Math 0.5) 10000%Q 10 Moderate 100%Q 0).
  vm_compute. discriminate.
Defined.

End ScenarioClaims.

(** ** WealthProjector *)

Section WealthClaims.

Import WealthProjector.

(** C6: in exact arithmetic, for every wealth profile the recommended
    allocation is the three entries Stocks, Bonds, Real Estate, in this
    order, with the percentages 80, 10, 10 (aggressive), 60, 30, 10
    (moderate) or 40, 50, 10 (conservative); the three percentages sum to
    100, and the value of each entry is its percentage / 100 times
    (currentAssets - currentLiabilities). *)
Theorem C6_allocation (wealthData : WealthData Q) :
  exists stocks bonds realEstate,
    snd (calculateRetirementProjection wealthData)
    = [stocks; bonds; realEstate]
    /\ category stocks = "Stocks"%string
    /\ category bonds = "Bonds"%string
    /\ category realEstate = "Real Estate"%string
    /\ (percentage stocks, percentage bonds, percentage realEstate)
       = allocationPercent (riskTolerance wealthData)
    /\ (percentage stocks + percentage bonds + percentage realEstate
        == 100)%Q
    /\ forall entry, In entry [stocks; bonds; realEstate] ->
         (value entry
          == percentage entry / 100
             * (currentAssets wealthData - currentLiabilities wealthData))%Q.
Proof.
  do 3 eexists. split; [reflexivity |].
  cbn [category percentage value].
  repeat split.
  - destruct (riskTolerance wealthData); reflexivity.
  - destruct (riskTolerance wealthData); reflexivity.
  - intros entry [<- | [<- | [<- | []]]]; cbn [percentage value];
      destruct (riskTolerance wealthData); cbn; field.
Qed.

(** On the form's initial values (net worth 200000, moderate risk) the
    allocation is 120000 in stocks, 60000 in bonds and 20000 in real
    estate. *)
Example allocation_example :
  map (fun entry => (category entry, Qred (value entry)))
      (assetAllocation example_wealth)
  = [ ("Stocks"%string, 120000%Q); ("Bonds"%string, 60000%Q);
      ("Real Estate"%string, 20000%Q) ].
Proof.
  reflexivity.
Qed.

(** In binary64 the percentages of each tier sum to 100 too, and each
    value is the net worth times the double percentage / 100. *)
Lemma allocation_binary64 (wealthData : WealthData PrimFloat.float) :
  fold_left add (map percentage (assetAllocation wealthData)) (lit 0)
  = lit 100
  /\ forall entry, In entry (assetAllocation wealthData) ->
       value entry
       = ((currentAssets wealthData - currentLiabilities wealthData)
          * (percentage entry / lit 100))%js.
Proof.
  split.
  - cbn [assetAllocation map percentage fold_left].
    destruct (riskTolerance wealthData); vm_compute; reflexivity.
  - intros entry [<- | [<- | [<- | []]]]; cbn [percentage value];
      destruct (riskTolerance wealthData); f_equal; vm_compute; reflexivity.
Qed.

(** The retirement series has one point per year from the current age to
    the retirement age. *)
Lemma retirementProjections_length {N : Type} `{JsNumber N}
    (wealthData : WealthData N) :
  length (fst (calculateRetirementProjection wealthData))
  = Z.to_nat (retirementAge wealthData - age wealthData + 1).
Proof.
  cbn [calculateRetirementProjection fst]. unfold retirementProjections.
  generalize (Z.to_nat (retirementAge wealthData - age wealthData + 1)).
  generalize 0.
  generalize (currentAssets wealthData - currentLiabilities wealthData)%js.
  intros savings year turns. revert savings year.
  induction turns as [| turns IH]; intros savings year; [reflexivity |].
  cbn [retirementLoop length]. now rewrite IH.
Qed.

End WealthClaims.

(** * Further properties *)

(** ** ScoreCalculator in exact arithmetic *)

Lemma Qle_bool_spec (a b : Q) : BoolSpec (a <= b)%Q (b < a)%Q (Qle_bool a b).
Proof.
  destruct (Qle_bool a b) eqn:E; constructor.
  - now apply Qle_bool_iff.
  - apply Qnot_le_lt. rewrite <- Qle_bool_iff. congruence.
Qed.

(** Case analysis on every comparison of the goal, in exact arithmetic. *)
Ltac exact_cases :=
  cbn [le lt lit add sub mul div Exact] in *;
  repeat match goal with
         | |- context [Qle_bool ?a ?b] =>
             destruct (Qle_bool_spec a b); cbn [negb andb orb]
         end.

Section ScoreExact.

Import ScoreCalculator.

Lemma savingsRateScore_monotone (r1 r2 : Q) :
  (r1 <= r2)%Q -> savingsRateScore r1 <= savingsRateScore r2.
Proof.
  intros Hle. unfold savingsRateScore. exact_cases; try lia; lra.
Qed.

Lemma debtManagementScore_antitone (r1 r2 : Q) :
  (r1 <= r2)%Q -> debtManagementScore r2 <= debtManagementScore r1.
Proof.
  intros Hle. unfold debtManagementScore. exact_cases; try lia; lra.
Qed.

Lemma emergencyFundScore_monotone (m1 m2 : Q) :
  (m1 <= m2)%Q -> emergencyFundScore m1 <= emergencyFundScore m2.
Proof.
  intros Hle. unfold emergencyFundScore. exact_cases; try lia; lra.
Qed.

Lemma expenseManagementScore_antitone (r1 r2 : Q) :
  (r1 <= r2)%Q -> expenseManagementScore r2 <= expenseManagementScore r1.
Proof.
  intros Hle. unfold expenseManagementScore. exact_cases; try lia; lra.
Qed.

(** The two ratios over the income add up to one. *)
Lemma savingsRate_plus_expenseRatio (data : AssessmentRequest Q) :
  (0 < monthlyIncome data)%Q ->
  (savingsRateOf data + expenseRatioOf data == 1)%Q.
Proof.
  intros Hi. unfold savingsRateOf, expenseRatioOf. cbn [sub div Exact].
  field. lra.
Qed.

Lemma expenses_of_ratio (data : AssessmentRequest Q) :
  (0 < monthlyIncome data)%Q ->
  (monthlyExpenses data == expenseRatioOf data * monthlyIncome data)%Q.
Proof.
  intros Hi. unfold expenseRatioOf. cbn [div Exact]. field. lra.
Qed.

Lemma ratio_le_compat (a b c : Q) :
  (0 < c)%Q -> (a <= b)%Q -> (a / c <= b / c)%Q.
Proof.
  intros Hc Hab. unfold Qdiv. apply Qmult_le_compat_r; [exact Hab |].
  apply Qlt_le_weak, Qinv_lt_0_compat, Hc.
Qed.

(** X1: in exact arithmetic, with a positive income, a score of 100 comes
    with no risk area at all, with the three strengths, and with no other
    recommendation than the goal timeline and the diversification. *)
Theorem perfect_score_profile (fmt : nat -> Q -> string)
    (data : AssessmentRequest Q) :
  (0 < monthlyIncome data)%Q ->
  score (calculateFinancialScore fmt data) = 100 ->
  riskAreas (calculateFinancialScore fmt data) = []
  /\ length (strengths (calculateFinancialScore fmt data)) = 3%nat
  /\ forall advice,
       In advice (recommendations (calculateFinancialScore fmt data)) ->
       advice = timelineAdvice \/ advice = diversifyAdvice.
Proof.
  intros Hi Hscore.
  cbn [calculateFinancialScore score] in Hscore.
  rewrite totalScoreOf_sum in Hscore.
  cbn [computeScores savingsRate debtManagement emergencyFund
       expenseManagement goalPlanning] in Hscore.
  pose proof (savingsRateScore_range (savingsRateOf data)) as R1.
  pose proof (debtManagementScore_range (debtToIncomeRatioOf data)) as R2.
  pose proof (emergencyFundScore_range (emergencyFundMonths data)) as R3.
  pose proof (expenseManagementScore_range (expenseRatioOf data)) as R4.
  pose proof (goalPlanningScore_range (shortTermGoals data)
                (longTermGoals data)) as R5.
  assert (S1 : (0.25 <= savingsRateOf data)%Q).
  { assert (E : savingsRateScore (savingsRateOf data) = 25) by lia.
    revert E. clear. unfold savingsRateScore. exact_cases; intros; try lia; lra. }
  assert (S2 : (debtToIncomeRatioOf data <= 0.3)%Q).
  { assert (E : debtManagementScore (debtToIncomeRatioOf data) = 25) by lia.
    revert E. clear. unfold debtManagementScore.
    exact_cases; intros; try lia; lra. }
  assert (S3 : (6 <= emergencyFundMonths data)%Q).
  { assert (E : emergencyFundScore (emergencyFundMonths data) = 20) by lia.
    revert E. clear. unfold emergencyFundScore.
    exact_cases; intros; try lia; lra. }
  assert (S4 : (expenseRatioOf data <= 0.5)%Q).
  { assert (E : expenseManagementScore (expenseRatioOf data) = 15) by lia.
    revert E. clear. unfold expenseManagementScore.
    exact_cases; intros; try lia; lra. }
  assert (S5 : str_truthy (shortTermGoals data) = true
               /\ str_truthy (longTermGoals data) = true).
  { assert (E : goalPlanningScore (shortTermGoals data) (longTermGoals data)
                = 15) by lia.
    revert E. clear. unfold goalPlanningScore.
    destruct (str_truthy (shortTermGoals data)),
             (str_truthy (longTermGoals data)); cbn; intros; try lia; auto. }
  destruct S5 as [S5 S6].
  assert (S7 : (monthlyExpenses data <= 0.5 * monthlyIncome data)%Q).
  { rewrite (expenses_of_ratio data Hi) at 1.
    apply Qmult_le_compat_r; [exact S4 | lra]. }
  clear Hscore R1 R2 R3 R4 R5.
  cbn [calculateFinancialScore riskAreas strengths recommendations].
  split; [| split].
  - unfold riskAreasOf.
    change (monthlyExpenses data / monthlyIncome data)%js
      with (expenseRatioOf data).
    exact_cases; try reflexivity; exfalso; lra.
  - unfold strengthsOf. exact_cases; try reflexivity; exfalso; lra.
  - unfold recommendationsOf, pushIf. rewrite S5. cbn [orb].
    unfold timelineAdvice, diversifyAdvice.
    exact_cases; try (exfalso; lra);
      cbn [app In]; intros advice Hin;
      repeat (destruct Hin as [<- | Hin]; [auto |]); contradiction.
Qed.

Lemma perfect_score_profile_witness :
  riskAreas (calculateFinancialScore Q_toFixed perfect_snapshot) = []
  /\ length (strengths (calculateFinancialScore Q_toFixed perfect_snapshot))
     = 3%nat
  /\ forall advice,
       In advice (recommendations
                    (calculateFinancialScore Q_toFixed perfect_snapshot)) ->
       advice = timelineAdvice \/ advice = diversifyAdvice.
Proof.
  apply (perfect_score_profile Q_toFixed perfect_snapshot).
  - reflexivity.
  - reflexivity.
Defined.



(** X3: in exact arithmetic, with a positive income, a larger total debt,
    all else equal, never gives a higher score. *)
Theorem more_debt_never_raises_score (fmt : nat -> Q -> string)
    (data : AssessmentRequest Q) (debt : Q) :
  (0 < monthlyIncome data)%Q ->
  (totalDebt data <= debt)%Q ->
  score (calculateFinancialScore fmt (with_totalDebt data debt))
  <= score (calculateFinancialScore fmt data).
Proof.
  intros Hi Hd. cbn [calculateFinancialScore score].
  rewrite !totalScoreOf_sum.
  cbn [computeScores savingsRate debtManagement emergencyFund
       expenseManagement goalPlanning with_totalDebt
       emergencyFundMonths shortTermGoals longTermGoals].
  change (savingsRateOf (with_totalDebt data debt)) with (savingsRateOf data).
  change (expenseRatioOf (with_totalDebt data debt)) with (expenseRatioOf data).
  assert (H : debtManagementScore (debtToIncomeRatioOf (with_totalDebt data debt))
              <= debtManagementScore (debtToIncomeRatioOf data)).
  { apply debtManagementScore_antitone. unfold debtToIncomeRatioOf.
    cbn [with_totalDebt totalDebt monthlyIncome div mul lit Exact].
    apply ratio_le_compat; [lra | exact Hd]. }
  lia.
Qed.

Lemma more_debt_never_raises_score_witness :
  score (calculateFinancialScore Q_toFixed
           (with_totalDebt example_snapshot 50000%Q))
  <= score (calculateFinancialScore Q_toFixed (N := Q) example_snapshot).
Proof.
  apply (more_debt_never_raises_score Q_toFixed example_snapshot 50000%Q).
  - reflexivity.
  - vm_compute. discriminate.
Defined.

(** X4: in exact arithmetic, a longer emergency fund, all else equal,
    never gives a lower score. *)
Theorem longer_emergency_fund_never_lowers_score (fmt : nat -> Q -> string)
    (data : AssessmentRequest Q) (months : Q) :
  (emergencyFundMonths data <= months)%Q ->
  score (calculateFinancialScore fmt data)
  <= score (calculateFinancialScore fmt (with_emergencyFundMonths data months)).
Proof.
  intros Hm. cbn [calculateFinancialScore score].
  rewrite !totalScoreOf_sum.
  cbn [computeScores savingsRate debtManagement emergencyFund
       expenseManagement goalPlanning with_emergencyFundMonths
       emergencyFundMonths shortTermGoals longTermGoals].
  change (savingsRateOf (with_emergencyFundMonths data months))
    with (savingsRateOf data).
  change (expenseRatioOf (with_emergencyFundMonths data months))
    with (expenseRatioOf data).
  change (debtToIncomeRatioOf (with_emergencyFundMonths data months))
    with (debtToIncomeRatioOf data).
  pose proof (emergencyFundScore_monotone _ _ Hm). lia.
Qed.

Lemma longer_emergency_fund_never_lowers_score_witness :
  score (calculateFinancialScore Q_toFixed (N := Q) example_snapshot)
  <= score (calculateFinancialScore Q_toFixed
              (with_emergencyFundMonths example_snapshot 7%Q)).
Proof.
  apply (longer_emergency_fund_never_lowers_score Q_toFixed example_snapshot
           7%Q).
  vm_compute. discriminate.
Defined.

(** X5: in exact arithmetic, with a positive income, higher monthly
    expenses, all else equal, never give a higher score. *)
Theorem higher_expenses_never_raise_score (fmt : nat -> Q -> string)
    (data : AssessmentRequest Q) (expenses : Q) :
  (0 < monthlyIncome data)%Q ->
  (monthlyExpenses data <= expenses)%Q ->
  score (calculateFinancialScore fmt (with_monthlyExpenses data expenses))
  <= score (calculateFinancialScore fmt data).
Proof.
  intros Hi He. cbn [calculateFinancialScore score].
  rewrite !totalScoreOf_sum.
  cbn [computeScores savingsRate debtManagement emergencyFund
       expenseManagement goalPlanning with_monthlyExpenses
       emergencyFundMonths shortTermGoals longTermGoals].
  change (debtToIncomeRatioOf (with_monthlyExpenses data expenses))
    with (debtToIncomeRatioOf data).
  assert (H1 : savingsRateScore (savingsRateOf (with_monthlyExpenses data expenses))
               <= savingsRateScore (savingsRateOf data)).
  { apply savingsRateScore_monotone. unfold savingsRateOf.
    cbn [with_monthlyExpenses monthlyExpenses monthlyIncome div sub Exact].
    apply ratio_le_compat; [exact Hi | lra]. }
  assert (H2 : expenseManagementScore
                 (expenseRatioOf (with_monthlyExpenses data expenses))
               <= expenseManagementScore (expenseRatioOf data)).
  { apply expenseManagementScore_antitone. unfold expenseRatioOf.
    cbn [with_monthlyExpenses monthlyExpenses monthlyIncome div Exact].
    apply ratio_le_compat; [exact Hi | exact He]. }
  lia.
Qed.

Lemma higher_expenses_never_raise_score_witness :
  score (calculateFinancialScore Q_toFixed
           (with_monthlyExpenses example_snapshot 4500%Q))
  <= score (calculateFinancialScore Q_toFixed (N := Q) example_snapshot).
Proof.
  apply (higher_expenses_never_raise_score Q_toFixed example_snapshot 4500%Q).
  - reflexivity.
  - vm_compute. discriminate.
Defined.

(** Where a risk message comes from. *)
Lemma riskAreasOf_inv (fmt : nat -> Q -> string) (data : AssessmentRequest Q)
    (msg : string) :
  In msg (riskAreasOf fmt data) ->
  (msg = "Very low savings rate - you're spending most or all of your income"%string
   /\ (savingsRateOf data < 0.05)%Q)
  \/ (msg = "Low savings rate - consider increasing your monthly savings"%string
      /\ (savingsRateOf data < 0.10)%Q)
  \/ (msg = ("High debt-to-income ratio of "
             ++ fmt 1%nat (debtToIncomeRatioOf data * 100)%Q
             ++ "% - debt exceeds annual income")%string
      /\ (1.0 < debtToIncomeRatioOf data)%Q)
  \/ (msg = ("Elevated debt-to-income ratio of "
             ++ fmt 1%nat (debtToIncomeRatioOf data * 100)%Q
             ++ "% - consider debt reduction strategy")%string
      /\ (0.7 < debtToIncomeRatioOf data)%Q)
  \/ (msg = ("Insufficient emergency fund - you have coverage for only "
             ++ fmt 1%nat (emergencyFundMonths data)
             ++ " months of expenses")%string
      /\ (emergencyFundMonths data < 3)%Q)
  \/ (msg = "Monthly expenses exceed income - you're running a deficit"%string
      /\ (monthlyIncome data < monthlyExpenses data)%Q)
  \/ (msg = "Expenses are consuming over 85% of income - limited flexibility for emergencies"%string
      /\ (0.85 < expenseRatioOf data)%Q).
Proof.
  unfold riskAreasOf.
  change (monthlyExpenses data / monthlyIncome data)%js
    with (expenseRatioOf data).
  intros Hin.
  repeat (apply in_app_or in Hin; destruct Hin as [Hin | Hin]);
    revert Hin; exact_cases; cbn [In]; intros Hin;
    repeat (destruct Hin as [<- | Hin]); try contradiction; tauto.
Qed.

(** When each recommendation is given. *)
Lemma recommendationsOf_complete (data : AssessmentRequest Q) :
  ((savingsRateOf data < 0.10)%Q -> In savingsAdvice (recommendationsOf data))
  /\ ((0.5 < debtToIncomeRatioOf data)%Q ->
      In debtAdvice (recommendationsOf data))
  /\ ((emergencyFundMonths data < 3)%Q ->
      In emergencyAdvice (recommendationsOf data))
  /\ ((monthlyIncome data * 0.85 < monthlyExpenses data)%Q ->
      In spendingAdvice (recommendationsOf data)).
Proof.
  unfold recommendationsOf, pushIf, savingsAdvice, debtAdvice,
    emergencyAdvice, spendingAdvice.
  repeat split; intros Hc.
  - apply in_or_app; left. exact_cases; [lra | now left].
  - apply in_or_app; right. apply in_or_app; left.
    exact_cases; [lra | now left].
  - do 2 (apply in_or_app; right). apply in_or_app; left.
    exact_cases; [lra | now left].
  - do 3 (apply in_or_app; right). apply in_or_app; left.
    exact_cases; [lra | now left].
Qed.



End ScoreExact.

(** ** The assessment form and the handler *)

Section FormAndHandler.

Import ScoreCalculator.

(** X7: in exact arithmetic, data that pass the form's validation of step
    1 (income) and step 4 (goals) are never rejected by the handler: the
    answer to the form's request is the 200 response with the calculator's
    result.  (Any [trim] that leaves the empty string empty will do.) *)
Theorem form_validated_data_is_scored (trim : string -> string)
    (fmt : nat -> Q -> string) (method : string)
    (formData : AssessmentRequest Q) :
  trim EmptyString = EmptyString ->
  method <> "OPTIONS"%string ->
  AssessmentForm.isStepValid trim 1 formData = true ->
  AssessmentForm.isStepValid trim 4 formData = true ->
  serve fmt method (inr formData)
  = {| status := 200;
       payload := ResultBody (calculateFinancialScore fmt formData) |}.
Proof.
  intros Htrim Hmethod H1 H4. apply String.eqb_neq in Hmethod.
  unfold serve. rewrite Hmethod.
  cbn [AssessmentForm.isStepValid] in H1, H4.
  apply andb_prop in H4. destruct H4 as [Hs Hl].
  assert (Hne : forall s, (0 <? String.length (trim s))%nat = true ->
                          str_truthy s = true).
  { intros [| c s] Hlen; [| reflexivity].
    rewrite Htrim in Hlen. discriminate. }
  rewrite (Hne _ Hs), (Hne _ Hl).
  assert (Hinc : truthy (monthlyIncome formData) = true).
  { revert H1. cbn [truthy lt lit Exact].
    destruct (Qle_bool_spec (monthlyIncome formData) 0) as [Hle | Hlt];
      [discriminate |].
    intros _. apply negb_true_iff.
    destruct (Qeq_bool (monthlyIncome formData) 0) eqn:E; [| reflexivity].
    apply Qeq_bool_iff in E. lra. }
  rewrite Hinc. reflexivity.
Qed.

Lemma form_validated_data_is_scored_witness :
  serve Q_toFixed "POST" (inr example_snapshot)
  = {| status := 200;
       payload :=
         ResultBody (calculateFinancialScore Q_toFixed (N := Q)
                       example_snapshot) |}.
Proof.
  apply (form_validated_data_is_scored ascii_trim Q_toFixed "POST"
           example_snapshot).
  - reflexivity.
  - discriminate.
  - reflexivity.
  - reflexivity.
Defined.

End FormAndHandler.

(** ** The guidance responder *)

Section GuidanceProperties.

Import FinancialGuidance.

(** [includes] finds exactly the occurrences of the key. *)
Lemma prefix_iff (key s : string) :
  String.prefix key s = true <-> exists post, s = (key ++ post)%string.
Proof.
  revert s. induction key as [| c key IH]; intros s.
  - split; [intros _; now exists s | intros _; now destruct s].
  - destruct s as [| d s]; cbn.
    + split; [discriminate | intros [post H]; discriminate].
    + destruct (Ascii.ascii_dec c d) as [-> | Hcd].
      * rewrite IH. split.
        -- intros [post ->]. now exists post.
        -- intros [post [= ->]]. now exists post.
      * split; [discriminate | intros [post [= Hd _]]; congruence].
Qed.

Lemma includes_iff (s key : string) :
  includes s key = true
  <-> exists pre post, s = (pre ++ key ++ post)%string.
Proof.
  induction s as [| c s IH]; cbn [includes]; rewrite orb_true_iff, prefix_iff.
  - split.
    + intros [[post H] | H]; [| discriminate]. exists EmptyString, post.
      exact H.
    + intros (pre & post & H). left. destruct pre; [now exists post |].
      discriminate.
  - rewrite IH. split.
    + intros [[post H] | (pre & post & H)].
      * exists EmptyString, post. exact H.
      * exists (String c pre), post. cbn. now rewrite H.
    + intros ([| d pre] & post & H).
      * left. now exists post.
      * right. cbn in H. injection H as _ H. now exists pre, post.
Qed.

Lemma firstMatch_In (q : string) (entries : list (string * string))
    (response : string) :
  firstMatch q entries = Some response ->
  exists key, In (key, response) entries /\ includes q key = true.
Proof.
  induction entries as [| [key r] rest IH]; [discriminate |].
  cbn [firstMatch]. destruct (includes q key) eqn:E.
  - intros [= <-]. exists key. split; [now left | exact E].
  - intros Hm. destruct (IH Hm) as (k & Hin & Hk). exists k.
    split; [now right | exact Hk].
Qed.

Lemma guidance_is_known_text (question : string) :
  In (generateFinancialGuidance question)
     (fallbackResponse :: map snd responses).
Proof.
  unfold generateFinancialGuidance.
  destruct (firstMatch (toLowerCase question) responses) as [r |] eqn:Hm.
  - destruct (firstMatch_In _ _ _ Hm) as (key & Hk & _).
    right. apply (in_map snd) in Hk. exact Hk.
  - now left.
Qed.

Lemma known_text_opens_with_disclaimer (text : string) :
  In text (fallbackResponse :: map snd responses) ->
  String.prefix disclaimer text = true.
Proof.
  cbn [map snd responses In].
  intros Hin;
    repeat (destruct Hin as [<- | Hin]; [vm_compute; reflexivity |]);
    contradiction.
Qed.

(** X8: whatever the question, the guidance text is one of the eight
    texts of the function and opens with the disclaimer "This is general
    information, not financial advice.". *)
Theorem guidance_opens_with_disclaimer (question : string) :
  In (generateFinancialGuidance question)
     (fallbackResponse :: map snd responses)
  /\ String.prefix disclaimer (generateFinancialGuidance question) = true.
Proof.
  split.
  - apply guidance_is_known_text.
  - apply known_text_opens_with_disclaimer, guidance_is_known_text.
Qed.

Lemma toLowerCase_idempotent (s : string) :
  toLowerCase (toLowerCase s) = toLowerCase s.
Proof.
  induction s as [| c s IH]; [reflexivity |].
  cbn [toLowerCase]. rewrite IH. f_equal.
  destruct c as [[] [] [] [] [] [] [] []]; reflexivity.
Qed.

(** X9: no entry of the table is shadowed by an earlier one: asking for a
    keyword itself gives the text of that keyword; and the answer does not
    depend on the case of the ASCII letters of the question: writing the
    question in small letters first leaves the answer as it is. *)
Theorem every_guidance_text_is_reachable :
  (forall key response, In (key, response) responses ->
     generateFinancialGuidance key = response)
  /\ (forall question,
        generateFinancialGuidance (toLowerCase question)
        = generateFinancialGuidance question).
Proof.
  split.
  - intros key response Hin. cbn [responses In] in Hin.
    repeat (destruct Hin as [[= <- <-] | Hin]; [vm_compute; reflexivity |]).
    contradiction.
  - intros question. unfold generateFinancialGuidance.
    now rewrite toLowerCase_idempotent.
Qed.



End GuidanceProperties.

(** ** The mock budget analysis *)

Section BudgetProperties.

Import BudgetAnalyzer.

Lemma fold_left_sum (expenses : list (Expense Q)) (start : Q) :
  (fold_left (fun sum e => sum + amount e)%js expenses start
   == start + sumQ (map amount expenses))%Q.
Proof.
  revert start. induction expenses as [| e rest IH]; intros start; cbn.
  - lra.
  - rewrite IH. cbn. unfold sumQ. lra.
Qed.


End BudgetProperties.

(** ** GoalPlanProjector and its form *)

Section GoalPlanExtras.

Import GoalPlanProjector.

Lemma monthsUpTo_nth_error_Some (n : Z) (i : nat) :
  (i < Z.to_nat n)%nat ->
  nth_error (monthsUpTo n) i = Some (Z.of_nat i + 1).
Proof.
  intros Hi. unfold monthsUpTo. rewrite nth_error_map.
  rewrite (nth_error_nth' _ 0%nat) by (now rewrite length_seq).
  rewrite seq_nth by exact Hi. cbn. f_equal. lia.
Qed.

Lemma chartDataFrom_nth_error {N : Type} `{JsNumber N} (targetAmount : N)
    (plans : list (MonthlyPlan N)) :
  forall (index : Z) (i : nat) (p : MonthlyPlan N),
    nth_error plans i = Some p ->
    nth_error (GoalForm.chartDataFrom index targetAmount plans) i
    = Some {| GoalForm.month := index + Z.of_nat i + 1;
              GoalForm.savings := savings p;
              GoalForm.investments := investments p;
              GoalForm.total := total p;
              GoalForm.target := targetAmount |}.
Proof.
  induction plans as [| q rest IH]; intros index i p.
  - destruct i; discriminate.
  - destruct i as [| i]; cbn [nth_error GoalForm.chartDataFrom].
    + intros [= <-]. do 2 f_equal. lia.
    + intros Hp. rewrite (IH (index + 1) i p Hp). do 2 f_equal. lia.
Qed.

(** X12: in every number model, the monthly plan has 12 * timeHorizon
    entries (none for a horizon of zero or less), the entry at index i is
    the one of month i + 1, it carries a milestone label exactly when its
    month is a multiple of 12, and the point that the form's chart draws
    at index i has the same month and total, with the target amount as
    its target. *)
Theorem plan_and_chart_shape {N : Type} `{JsNumber N}
    (fmt : nat -> N -> string) (loc : N -> string)
    (request : FinancialPlanRequest N) :
  let plan := generateMockFinancialPlan fmt loc request in
  length (monthlyPlans plan) = Z.to_nat (timeHorizon request * 12)
  /\ (timeHorizon request <= 0 -> monthlyPlans plan = [])
  /\ forall i p,
       nth_error (monthlyPlans plan) i = Some p ->
       month p = Z.of_nat i + 1
       /\ (milestone p <> EmptyString <-> month p mod 12 = 0)
       /\ exists point,
            nth_error (GoalForm.chartData request (Some plan)) i = Some point
            /\ GoalForm.month point = month p
            /\ GoalForm.total point = total p
            /\ GoalForm.target point = targetAmount request.
Proof.
  intros plan.
  assert (Hlen : length (monthlyPlans plan)
                 = Z.to_nat (timeHorizon request * 12)).
  { subst plan. cbn [generateMockFinancialPlan monthlyPlans].
    now rewrite length_map, monthsUpTo_length. }
  split; [exact Hlen |]. split.
  - intros Hth. apply length_zero_iff_nil. rewrite Hlen. lia.
  - intros i p Hp.
    pose proof (monthlyPlans_nth_error fmt loc request i p Hp) as Heq.
    split; [subst p; reflexivity |]. split.
    + subst p. cbn [monthlyPlanAt milestone month].
      destruct (Z.eqb_spec ((Z.of_nat i + 1) mod 12) 0) as [E | E].
      * split; [intros _; exact E | intros _; discriminate].
      * split; [intros Hne; now destruct Hne | intros E'; contradiction].
    + eexists. split.
      * cbn [GoalForm.chartData]. apply chartDataFrom_nth_error. exact Hp.
      * cbn [GoalForm.month GoalForm.total GoalForm.target].
        rewrite Heq. cbn [monthlyPlanAt month]. repeat split; lia.
Qed.

(** In exact arithmetic the total of a month is the current savings plus
    that many monthly contributions. *)
Lemma total_closed_form (request : FinancialPlanRequest Q) (m : Z) :
  (total (monthlyPlanAt request (monthlySavingsOf request) m)
   == currentSavings request + monthlySavingsOf request * inject_Z m)%Q.
Proof.
  cbn [monthlyPlanAt total add mul of_Z lit Exact]. ring.
Qed.






End GoalPlanExtras.

Section GoalPlanExtrasWitnesses.

Import GoalPlanProjector.


End GoalPlanExtrasWitnesses.

(** ** ScenarioProjector: the random source, the edges and the chart *)

Section ScenarioExtras.

Import ScenarioProjector.

Context {N : Type} `{JsNumber N}.

Variable Math : MathObject N.

Lemma monthLoop_draws (months : nat) : forall mr mv mc st,
  snd (monthLoop Math months mr mv mc st) = (snd st + 3 * months)%nat.
Proof.
  induction months as [| months IH]; intros mr mv mc st; cbn [monthLoop].
  - lia.
  - rewrite IH. destruct st as [b k]. cbn. lia.
Qed.

Lemma yearLoop_draws_later (turns : nat) : forall year mr mv mc st,
  0 < year ->
  snd (yearLoop Math turns year mr mv mc st) = (snd st + 36 * turns)%nat.
Proof.
  induction turns as [| turns IH]; intros year mr mv mc st Hy;
    cbn [yearLoop]; [cbn; lia |].
  destruct (Z.eqb_spec year 0) as [E | _]; [lia |].
  specialize (IH (year + 1) mr mv mc (monthLoop Math 12 mr mv mc st)).
  destruct (yearLoop Math turns (year + 1) mr mv mc
              (monthLoop Math 12 mr mv mc st)) as [rest k].
  cbn [snd] in *. rewrite IH by lia. rewrite monthLoop_draws. lia.
Qed.

(** One projection makes 36 draws a year: three a month. *)
Lemma calculateProjection_draws initialAmount duration scenario mc k :
  0 <= duration ->
  snd (calculateProjection Math initialAmount duration scenario mc k)
  = (k + 36 * Z.to_nat duration)%nat.
Proof.
  intros Hd. unfold calculateProjection.
  replace (Z.to_nat (duration + 1)) with (S (Z.to_nat duration)) by lia.
  cbn [yearLoop Z.eqb].
  match goal with
  | |- context [yearLoop Math ?t ?y ?a ?b ?c ?s] =>
      pose proof (yearLoop_draws_later t y a b c s) as Hl;
      destruct (yearLoop Math t y a b c s) as [rest k']
  end.
  cbn [snd] in *. apply Hl. lia.
Qed.

Lemma calculateProjection_negative initialAmount duration scenario mc k :
  duration < 0 ->
  calculateProjection Math initialAmount duration scenario mc k = ([], k).
Proof.
  intros Hd. unfold calculateProjection.
  replace (Z.to_nat (duration + 1)) with 0%nat by lia. reflexivity.
Qed.

Lemma rev_head_nth_error {A : Type} (l : list A) (x : A) (others : list A) :
  rev l = x :: others -> nth_error l (length l - 1) = Some x.
Proof.
  intros Hrev. apply (f_equal (@rev A)) in Hrev.
  rewrite rev_involutive in Hrev. subst l. cbn [rev].
  rewrite length_app, nth_error_app2; cbn [length]; [| lia].
  replace (length (rev others) + 1 - 1 - length (rev others))%nat
    with 0%nat by lia.
  reflexivity.
Qed.

Lemma combineFrom_nth_error :
  forall (cs ms aps combined : list (ProjectionData N)) (index : Z),
    combineFrom index cs ms aps = Some combined ->
    forall i c m a,
      nth_error cs i = Some c -> nth_error ms i = Some m ->
      nth_error aps i = Some a ->
      nth_error combined i
      = Some {| year := index + Z.of_nat i;
                conservative := conservative c;
                moderate := moderate m;
                aggressive := aggressive a |}.
Proof.
  induction cs as [| c0 cs IH]; intros ms aps combined index Hcomb i c m a.
  - destruct i; discriminate.
  - cbn [combineFrom] in Hcomb. destruct ms as [| m0 ms]; [discriminate |].
    destruct aps as [| a0 aps]; [discriminate |].
    destruct (combineFrom (index + 1) cs ms aps) as [rest |] eqn:Hrest;
      [| discriminate].
    injection Hcomb as <-. destruct i as [| i]; cbn [nth_error].
    + intros [= <-] [= <-] [= <-]. do 2 f_equal. lia.
    + intros Hc Hm Ha. rewrite (IH _ _ _ _ Hrest i c m a Hc Hm Ha).
      do 2 f_equal. lia.
Qed.

(** What a run is made of, for a duration that is not negative: four
    projections on consecutive draws, their combination and the three
    summaries. *)
Lemma runSimulation_inv (inputs : SimulationInputs N) (k : nat) :
  0 <= duration inputs ->
  let mc := orZero (monthlyContribution inputs) in
  let turns := Z.to_nat (duration inputs) in
  exists unused cs ms aps combined rc rm ra,
    calculateProjection Math (initialAmount inputs) (duration inputs)
      (riskTolerance inputs) mc k = (unused, (k + 36 * turns)%nat)
    /\ calculateProjection Math (initialAmount inputs) (duration inputs)
         Conservative mc (k + 36 * turns)%nat = (cs, (k + 72 * turns)%nat)
    /\ calculateProjection Math (initialAmount inputs) (duration inputs)
         Moderate mc (k + 72 * turns)%nat = (ms, (k + 108 * turns)%nat)
    /\ calculateProjection Math (initialAmount inputs) (duration inputs)
         Aggressive mc (k + 108 * turns)%nat = (aps, (k + 144 * turns)%nat)
    /\ combineFrom 0 cs ms aps = Some combined
    /\ calculateScenarioResults Math (initialAmount inputs) cs Conservative
       = Some rc
    /\ calculateScenarioResults Math (initialAmount inputs) ms Moderate
       = Some rm
    /\ calculateScenarioResults Math (initialAmount inputs) aps Aggressive
       = Some ra
    /\ runSimulation Math inputs k
       = (Some {| conservativeResult := rc; moderateResult := rm;
                  aggressiveResult := ra; projections := combined |},
          (k + 144 * turns)%nat).
Proof.
  intros Hd mc turns.
  assert (Hproj : forall scenario j,
             exists l,
               calculateProjection Math (initialAmount inputs)
                 (duration inputs) scenario mc j = (l, (j + 36 * turns)%nat)
               /\ length l = S turns).
  { intros scenario j.
    pose proof (calculateProjection_draws (initialAmount inputs)
                  (duration inputs) scenario mc j Hd) as Hk.
    pose proof (calculateProjection_length Math (initialAmount inputs)
                  (duration inputs) scenario mc j) as Hl.
    destruct (calculateProjection Math (initialAmount inputs)
                (duration inputs) scenario mc j) as [l j'].
    cbn [fst snd] in *. exists l. subst j'. split; [reflexivity |].
    rewrite Hl. subst turns. lia. }
  destruct (Hproj (riskTolerance inputs) k) as (unused & Hu & _).
  destruct (Hproj Conservative (k + 36 * turns)%nat) as (cs & Hc & Lc).
  destruct (Hproj Moderate (k + 72 * turns)%nat) as (ms & Hm & Lm).
  destruct (Hproj Aggressive (k + 108 * turns)%nat) as (aps & Ha & La).
  replace (k + 36 * turns + 36 * turns)%nat with (k + 72 * turns)%nat in Hc
    by lia.
  replace (k + 72 * turns + 36 * turns)%nat with (k + 108 * turns)%nat in Hm
    by lia.
  replace (k + 108 * turns + 36 * turns)%nat with (k + 144 * turns)%nat in Ha
    by lia.
  destruct (combineFrom_Some cs ms aps 0) as [combined Hcomb];
    [congruence | congruence |].
  assert (Hne : forall l : list (ProjectionData N),
             length l = S turns -> l <> []) by (intros l Hl ->; discriminate).
  destruct (calculateScenarioResults_Some Math (initialAmount inputs)
              cs Conservative (Hne _ Lc)) as (rc & Hrc & _).
  destruct (calculateScenarioResults_Some Math (initialAmount inputs)
              ms Moderate (Hne _ Lm)) as (rm & Hrm & _).
  destruct (calculateScenarioResults_Some Math (initialAmount inputs)
              aps Aggressive (Hne _ La)) as (ra & Hra & _).
  exists unused, cs, ms, aps, combined, rc, rm, ra.
  repeat (split; [assumption |]).
  unfold runSimulation. fold mc. rewrite Hu, Hc, Hm, Ha, Hcomb, Hrc, Hrm, Hra.
  reflexivity.
Qed.

(** The summary of a tier reads the last entry of its series. *)
Lemma calculateScenarioResults_final initialAmount
    (series : list (ProjectionData N)) (scenario : RiskTier)
    (r : ScenarioResult N) :
  calculateScenarioResults Math initialAmount series scenario = Some r ->
  exists final,
    nth_error series (length series - 1) = Some final
    /\ finalValue r = field scenario final
    /\ totalReturn r = (finalValue r - initialAmount)%js.
Proof.
  unfold calculateScenarioResults.
  destruct (rev series) as [| final others] eqn:Hrev; [discriminate |].
  intros [= <-]. exists final. split; [| split; reflexivity].
  exact (rev_head_nth_error _ _ _ Hrev).
Qed.

End ScenarioExtras.

Section ScenarioExtraClaims.

Import ScenarioProjector.

(** X16: in every number model, for a duration that is not negative, one
    projection consumes 36 random draws per year (three a month, none for
    year 0), and a run of the simulator consumes 144 per year: its four
    projections draw one after the other, the summaries of the
    conservative, moderate and aggressive tiers being computed from the
    projections that start 36, 72 and 108 draws per year after the start
    of the run, so the three tiers of the comparison never share a
    draw. *)
Theorem simulation_draws {N : Type} `{JsNumber N} (Math : MathObject N)
    (inputs : SimulationInputs N) (k : nat) :
  0 <= duration inputs ->
  let turns := Z.to_nat (duration inputs) in
  (forall initialAmount scenario contribution j,
     snd (calculateProjection Math initialAmount (duration inputs) scenario
            contribution j) = (j + 36 * turns)%nat)
  /\ snd (runSimulation Math inputs k) = (k + 144 * turns)%nat
  /\ exists results,
       fst (runSimulation Math inputs k) = Some results
       /\ calculateScenarioResults Math (initialAmount inputs)
            (fst (calculateProjection Math (initialAmount inputs)
                    (duration inputs) Conservative
                    (orZero (monthlyContribution inputs))
                    (k + 36 * turns)%nat)) Conservative
          = Some (conservativeResult results)
       /\ calculateScenarioResults Math (initialAmount inputs)
            (fst (calculateProjection Math (initialAmount inputs)
                    (duration inputs) Moderate
                    (orZero (monthlyContribution inputs))
                    (k + 72 * turns)%nat)) Moderate
          = Some (moderateResult results)
       /\ calculateScenarioResults Math (initialAmount inputs)
            (fst (calculateProjection Math (initialAmount inputs)
                    (duration inputs) Aggressive
                    (orZero (monthlyContribution inputs))
                    (k + 108 * turns)%nat)) Aggressive
          = Some (aggressiveResult results).
Proof.
  intros Hd turns. split; [| split].
  - intros initialAmount scenario contribution j.
    now apply calculateProjection_draws.
  - destruct (runSimulation_inv Math inputs k Hd)
      as (unused & cs & ms & aps & combined & rc & rm & ra & Hinv).
    destruct Hinv as (_ & _ & _ & _ & _ & _ & _ & _ & Hrun).
    now rewrite Hrun.
  - destruct (runSimulation_inv Math inputs k Hd)
      as (unused & cs & ms & aps & combined & rc & rm & ra & Hinv).
    destruct Hinv as (_ & Hc & Hm & Ha & _ & Hrc & Hrm & Hra & Hrun).
    fold turns in Hc, Hm, Ha.
    eexists. rewrite Hrun. split; [reflexivity |].
    rewrite Hc, Hm, Ha. cbn [fst conservativeResult moderateResult
                               aggressiveResult].
    repeat split; assumption.
Qed.

Lemma simulation_draws_witness :
  snd (runSimulation (Q_Math 0.5) example_inputs 7) = (7 + 144 * 10)%nat.
Proof.
  destruct (simulation_draws (Q_Math 0.5) example_inputs 7) as (_ & H & _).
  - vm_compute. discriminate.
  - exact H.
Defined.

(** X17: in every number model, for a negative duration the projection is
    empty and makes no draw, and the run of the simulator fails with the
    TypeError of reading the last entry of an empty series. *)
Theorem negative_duration_throws {N : Type} `{JsNumber N}
    (Math : MathObject N) (inputs : SimulationInputs N) (k : nat) :
  duration inputs < 0 ->
  (forall initialAmount scenario contribution j,
     calculateProjection Math initialAmount (duration inputs) scenario
       contribution j = ([], j))
  /\ runSimulation Math inputs k = (None, k).
Proof.
  intros Hd. split.
  - intros. now apply calculateProjection_negative.
  - unfold runSimulation.
    rewrite !calculateProjection_negative by exact Hd. reflexivity.
Qed.

Lemma negative_duration_throws_witness :
  runSimulation (Q_Math 0.5) negative_duration_inputs 0 = (None, 0%nat).
Proof.
  apply (negative_duration_throws (Q_Math 0.5) negative_duration_inputs 0).
  reflexivity.
Defined.

(** X18: in every number model, for a duration that is not negative, the
    last point of the combined series, the one of year [duration], shows
    in each tier field the final value of that tier's summary, and each
    total return is the final value minus the initial amount: the chart
    and the table of the component agree. *)
Theorem chart_ends_at_final_values {N : Type} `{JsNumber N}
    (Math : MathObject N) (inputs : SimulationInputs N) (k : nat) :
  0 <= duration inputs ->
  exists results final,
    fst (runSimulation Math inputs k) = Some results
    /\ nth_error (projections results) (Z.to_nat (duration inputs))
       = Some final
    /\ year final = duration inputs
    /\ forall tier,
         field tier final = finalValue (resultOf tier results)
         /\ totalReturn (resultOf tier results)
            = (finalValue (resultOf tier results) - initialAmount inputs)%js.
Proof.
  intros Hd.
  destruct (runSimulation_inv Math inputs k Hd)
    as (unused & cs & ms & aps & combined & rc & rm & ra & Hinv).
  destruct Hinv as (_ & Hc & Hm & Ha & Hcomb & Hrc & Hrm & Hra & Hrun).
  assert (Hlen : forall scenario j l j',
             calculateProjection Math (initialAmount inputs) (duration inputs)
               scenario (orZero (monthlyContribution inputs)) j = (l, j') ->
             (length l - 1)%nat = Z.to_nat (duration inputs)).
  { intros scenario j l j' E.
    pose proof (calculateProjection_length Math (initialAmount inputs)
                  (duration inputs) scenario
                  (orZero (monthlyContribution inputs)) j) as L.
    rewrite E in L. cbn [fst] in L. rewrite L. lia. }
  destruct (calculateScenarioResults_final Math _ _ _ _ Hrc)
    as (fc & Hfc & Vc & Tc).
  destruct (calculateScenarioResults_final Math _ _ _ _ Hrm)
    as (fm & Hfm & Vm & Tm).
  destruct (calculateScenarioResults_final Math _ _ _ _ Hra)
    as (fa & Hfa & Va & Ta).
  rewrite (Hlen _ _ _ _ Hc) in Hfc. rewrite (Hlen _ _ _ _ Hm) in Hfm.
  rewrite (Hlen _ _ _ _ Ha) in Hfa.
  pose proof (combineFrom_nth_error _ _ _ _ _ Hcomb _ _ _ _ Hfc Hfm Hfa)
    as Hfinal.
  eexists. eexists. rewrite Hrun. cbn [fst projections].
  split; [reflexivity |]. split; [exact Hfinal |].
  split; [cbn [year]; lia |].
  cbn [field] in Vc, Vm, Va.
  intros [| |]; cbn [field resultOf conservative moderate aggressive
                       conservativeResult moderateResult aggressiveResult];
    split; congruence.
Qed.

Lemma chart_ends_at_final_values_witness :
  exists results final,
    fst (runSimulation (Q_Math 0.5) example_inputs 0) = Some results
    /\ nth_error (projections results) 10 = Some final
    /\ year final = 10
    /\ forall tier,
         field tier final = finalValue (resultOf tier results)
         /\ totalReturn (resultOf tier results)
            = (finalValue (resultOf tier results)
               - initialAmount example_inputs)%js.
Proof.
  apply (chart_ends_at_final_values (Q_Math 0.5) example_inputs 0).
  vm_compute. discriminate.
Defined.

(** X19: in every number model, a run over zero years makes no draw, and
    the final value of every tier is the initial amount, untouched by
    contribution, growth or rounding. *)
Theorem zero_duration_keeps_initial_amount {N : Type} `{JsNumber N}
    (Math : MathObject N) (inputs : SimulationInputs N) (k : nat) :
  duration inputs = 0 ->
  exists results,
    runSimulation Math inputs k = (Some results, k)
    /\ forall tier,
         finalValue (resultOf tier results) = initialAmount inputs.
Proof.
  intros Hd.
  assert (Hd' : 0 <= duration inputs) by lia.
  destruct (runSimulation_inv Math inputs k Hd')
    as (unused & cs & ms & aps & combined & rc & rm & ra & Hinv).
  destruct Hinv as (_ & Hc & Hm & Ha & Hcomb & Hrc & Hrm & Hra & Hrun).
  replace (k + 144 * Z.to_nat (duration inputs))%nat with k in Hrun
    by (rewrite Hd; cbn; lia).
  eexists. split; [exact Hrun |].
  assert (Hone : forall scenario j l j',
             calculateProjection Math (initialAmount inputs) (duration inputs)
               scenario (orZero (monthlyContribution inputs)) j = (l, j') ->
             forall r,
               calculateScenarioResults Math (initialAmount inputs) l scenario
               = Some r ->
               finalValue r = initialAmount inputs).
  { intros scenario j l j' E r Hr.
    destruct (calculateScenarioResults_final Math _ _ _ _ Hr)
      as (final & Hfinal & Hv & _).
    pose proof (calculateProjection_length Math (initialAmount inputs)
                  (duration inputs) scenario
                  (orZero (monthlyContribution inputs)) j) as L.
    pose proof (calculateProjection_head Math (initialAmount inputs)
                  (duration inputs) scenario
                  (orZero (monthlyContribution inputs)) j Hd') as Hh.
    rewrite E in L, Hh. cbn [fst] in L, Hh. rewrite Hd in L.
    replace (length l - 1)%nat with 0%nat in Hfinal
      by (rewrite L; reflexivity).
    rewrite Hh in Hfinal.
    injection Hfinal as <-. rewrite Hv. now destruct scenario. }
  intros [| |]; cbn [resultOf conservativeResult moderateResult
                       aggressiveResult].
  - exact (Hone _ _ _ _ Hc _ Hrc).
  - exact (Hone _ _ _ _ Hm _ Hrm).
  - exact (Hone _ _ _ _ Ha _ Hra).
Qed.

Lemma zero_duration_keeps_initial_amount_witness :
  exists results,
    runSimulation (Q_Math 0.5) zero_duration_inputs 3 = (Some results, 3%nat)
    /\ forall tier, finalValue (resultOf tier results) = 10000%Q.
Proof.
  apply (zero_duration_keeps_initial_amount (Q_Math 0.5) zero_duration_inputs
           3).
  reflexivity.
Defined.

End ScenarioExtraClaims.

Section ScenarioExact.

Import ScenarioProjector.

Variable Math : MathObject Q.

Hypothesis sqrt_12_at_least_1 : (1 <= Math_sqrt Math 12)%Q.
Hypothesis draws_in_unit_interval :
  forall j, (0 <= Math_random Math j <= 1)%Q.
Hypothesis round_keeps_sign :
  forall x, (0 <= x)%Q -> (0 <= Math_round Math x)%Q.

(** A month multiplies a balance by at least 3/4. *)
Lemma growth_factor_positive (mr mv d : Q) :
  (0 <= mr)%Q -> (0 <= mv <= 1)%Q -> (0 <= d <= 1)%Q ->
  (0 <= 1 + (mr + (d - 0.5) * mv * 0.5))%Q.
Proof.
  intros Hmr Hmv Hd.
  assert (Ht : (- (1 # 2) <= (d - 0.5) * mv)%Q) by nra.
  lra.
Qed.

Lemma monthStep_nonnegative (mr mv mc : Q) (st : Balances Q * nat) :
  (0 <= mr)%Q -> (0 <= mv <= 1)%Q -> (0 <= mc)%Q ->
  nonnegative (fst st) ->
  nonnegative (fst (monthStep Math mr mv mc st)).
Proof.
  intros Hmr Hmv Hmc (Hc & Hm & Ha). destruct st as [b k].
  cbn [fst] in *. unfold monthStep, nonnegative.
  cbn [fst conservativeValue moderateValue aggressiveValue
       add sub mul lit Exact].
  repeat split; apply Qmult_le_0_compat;
    try (apply growth_factor_positive; auto); lra.
Qed.

Lemma monthLoop_nonnegative (months : nat) (mr mv mc : Q) :
  (0 <= mr)%Q -> (0 <= mv <= 1)%Q -> (0 <= mc)%Q ->
  forall st, nonnegative (fst st) ->
             nonnegative (fst (monthLoop Math months mr mv mc st)).
Proof.
  intros Hmr Hmv Hmc.
  induction months as [| months IH]; intros st Hst; cbn [monthLoop];
    [exact Hst |].
  apply IH. now apply monthStep_nonnegative.
Qed.

Lemma yearLoop_nonnegative (turns : nat) (mr mv mc : Q) :
  (0 <= mr)%Q -> (0 <= mv <= 1)%Q -> (0 <= mc)%Q ->
  forall year st p,
    nonnegative (fst st) ->
    In p (fst (yearLoop Math turns year mr mv mc st)) ->
    (0 <= conservative p)%Q /\ (0 <= moderate p)%Q /\ (0 <= aggressive p)%Q.
Proof.
  intros Hmr Hmv Hmc.
  induction turns as [| turns IH]; intros year st p Hst; cbn [yearLoop];
    [intros [] |].
  destruct (year =? 0).
  - specialize (IH (year + 1) st p Hst).
    destruct (yearLoop Math turns (year + 1) mr mv mc st) as [rest k].
    cbn [fst In]. intros [<- | Hin]; [exact Hst | now apply IH].
  - pose proof (monthLoop_nonnegative 12 mr mv mc Hmr Hmv Hmc st Hst) as Hst'.
    specialize (IH (year + 1) (monthLoop Math 12 mr mv mc st) p Hst').
    destruct (yearLoop Math turns (year + 1) mr mv mc
                (monthLoop Math 12 mr mv mc st)) as [rest k].
    cbn [fst In]. intros [<- | Hin]; [| now apply IH].
    destruct Hst' as (Hc & Hm & Ha).
    cbn [conservative moderate aggressive]. auto.
Qed.

(** X20: in exact arithmetic, with a square root of 12 that is at least 1,
    random draws between 0 and 1 and a rounding that keeps non-negative
    values non-negative, an initial amount and a monthly contribution
    that are not negative give projected values that are never negative,
    in every tier and every year: a month multiplies a balance by 3/4 at
    the least. *)
Theorem projected_values_never_negative (initialAmount : Q) (duration : Z)
    (scenario : RiskTier) (monthlyContribution : Q) (k : nat)
    (p : ProjectionData Q) :
  (0 <= initialAmount)%Q ->
  (0 <= monthlyContribution)%Q ->
  In p (fst (calculateProjection Math initialAmount duration scenario
               monthlyContribution k)) ->
  (0 <= conservative p)%Q /\ (0 <= moderate p)%Q /\ (0 <= aggressive p)%Q.
Proof.
  intros Hi Hmc. unfold calculateProjection.
  apply yearLoop_nonnegative.
  - destruct scenario; vm_compute; discriminate.
  - assert (Hs : (0 < Math_sqrt Math 12)%Q) by lra.
    cbn [div lit Exact]. split.
    + apply Qle_shift_div_l; [exact Hs |].
      destruct scenario;
        cbn [FINANCIAL_ASSUMPTIONS assumedVolatility lit Exact]; lra.
    + apply Qle_shift_div_r; [exact Hs |].
      destruct scenario;
        cbn [FINANCIAL_ASSUMPTIONS assumedVolatility lit Exact]; lra.
  - exact Hmc.
  - repeat split; exact Hi.
Qed.

End ScenarioExact.

Lemma round_half_up_nonnegative (x : Q) :
  (0 <= x)%Q -> (0 <= inject_Z (round_half_up x))%Q.
Proof.
  intros Hx. unfold round_half_up.
  change 0%Q with (inject_Z 0). rewrite <- Zle_Qle.
  change 0 with (Qfloor 0). apply Qfloor_resp_le. lra.
Qed.

Lemma projected_values_never_negative_witness :
  exists p,
    nth_error (fst (ScenarioProjector.calculateProjection (Q_Math 0.5)
                      10000%Q 2 Moderate 100%Q 0)) 2 = Some p
    /\ (0 <= ScenarioProjector.conservative p)%Q
    /\ (0 <= ScenarioProjector.moderate p)%Q
    /\ (0 <= ScenarioProjector.aggressive p)%Q.
Proof.
  eexists. split; [vm_compute; reflexivity |].
  apply (projected_values_never_negative (Q_Math 0.5)) with
    (initialAmount := 10000%Q) (duration := 2) (scenario := Moderate)
    (monthlyContribution := 100%Q) (k := 0%nat).
  - vm_compute. discriminate.
  - intros j. split; vm_compute; discriminate.
  - exact round_half_up_nonnegative.
  - vm_compute. discriminate.
  - vm_compute. discriminate.
  - apply (nth_error_In _ 2). vm_compute. reflexivity.
Defined.

(** ** WealthProjector: the retirement series and the dashboard *)

Section WealthExtras.

Import WealthProjector.

Lemma retirementLoop_nth_error {N : Type} `{JsNumber N} (turns : nat) :
  forall (year : Z) (wealthData : WealthData N) (r s : N) (i : nat)
         (p : RetirementProjection N),
    nth_error (retirementLoop turns year wealthData r s) i = Some p ->
    projectedAge p = age wealthData + year + Z.of_nat i
    /\ total p
       = Nat.iter (S i) (compoundMonths 12 (monthlySavings wealthData) r) s
    /\ savings p = (total p * lit 0.6)%js
    /\ investments p = (total p * lit 0.4)%js.
Proof.
  induction turns as [| turns IH]; intros year wealthData r s i p.
  - destruct i; discriminate.
  - cbn [retirementLoop]. destruct i as [| i]; cbn [nth_error].
    + intros [= <-]. cbn [projectedAge total savings investments Nat.iter].
      repeat split. lia.
    + intros Hp. destruct (IH _ _ _ _ _ _ Hp) as (Ha & Ht & Hs & Hi).
      repeat split; try assumption; [lia |].
      rewrite Ht. now rewrite <- !Nat.iter_succ_r.
Qed.

(** The point at index i of the retirement series. *)
Lemma retirement_series_nth_error {N : Type} `{JsNumber N}
    (wealthData : WealthData N) (i : nat) (p : RetirementProjection N) :
  nth_error (fst (calculateRetirementProjection wealthData)) i = Some p ->
  projectedAge p = age wealthData + Z.of_nat i
  /\ total p
     = Nat.iter (S i)
         (compoundMonths 12 (monthlySavings wealthData)
            (investmentReturn wealthData / lit 100 / lit 12)%js)
         (WealthDashboard.netWorth wealthData)
  /\ savings p = (total p * lit 0.6)%js
  /\ investments p = (total p * lit 0.4)%js.
Proof.
  cbn [calculateRetirementProjection fst]. unfold retirementProjections.
  intros Hp.
  destruct (retirementLoop_nth_error _ _ _ _ _ _ _ Hp) as (Ha & Ht & Hs & Hv).
  repeat split; try assumption. lia.
Qed.

(** X21: in every number model, the retirement series has one point per
    year from the current age to the retirement age, both included (none
    when the retirement age is below the current age); the point at index
    i is the one of age [age + i], its savings and investments are 0.6
    and 0.4 times its total, and its total is the starting net worth
    after i + 1 years of twelve monthly steps, so that the point of the
    current age already holds a year of contributions and growth. *)
Theorem retirement_series_shape {N : Type} `{JsNumber N}
    (wealthData : WealthData N) :
  let series := fst (calculateRetirementProjection wealthData) in
  length series
  = Z.to_nat (retirementAge wealthData - age wealthData + 1)
  /\ (retirementAge wealthData < age wealthData -> series = [])
  /\ forall i p,
       nth_error series i = Some p ->
       projectedAge p = age wealthData + Z.of_nat i
       /\ projectedAge p <= retirementAge wealthData
       /\ total p
          = Nat.iter (S i)
              (compoundMonths 12 (monthlySavings wealthData)
                 (investmentReturn wealthData / lit 100 / lit 12)%js)
              (WealthDashboard.netWorth wealthData)
       /\ savings p = (total p * lit 0.6)%js
       /\ investments p = (total p * lit 0.4)%js.
Proof.
  intros series.
  pose proof (retirementProjections_length wealthData) as Hlen.
  fold series in Hlen.
  split; [exact Hlen |]. split.
  - intros Hlt. apply length_zero_iff_nil. rewrite Hlen. lia.
  - intros i p Hp.
    assert (Hi : (i < length series)%nat) by (apply nth_error_Some; congruence).
    subst series.
    destruct (retirement_series_nth_error wealthData i p Hp)
      as (Ha & Ht & Hs & Hv).
    repeat split; try assumption. lia.
Qed.

Lemma compoundMonths_zero_return (ms r : Q) (months : nat) :
  (r == 0)%Q ->
  forall s s' : Q, (s == s')%Q ->
    (compoundMonths months ms r s == s' + inject_Z (Z.of_nat months) * ms)%Q.
Proof.
  intros Hr. induction months as [| months IH]; intros s s' Hs.
  - cbn [compoundMonths]. change (inject_Z (Z.of_nat 0)) with 0%Q.
    rewrite Hs. ring.
  - cbn [compoundMonths add mul Exact].
    rewrite (IH _ (s' + ms)%Q).
    + rewrite Nat2Z.inj_succ. unfold Z.succ. rewrite inject_Z_plus.
      change (inject_Z 1) with 1%Q. ring.
    + rewrite Hs, Hr. ring.
Qed.

Lemma compoundMonths_growth (ms r : Q) (months : nat) :
  (0 <= ms)%Q -> (0 <= r)%Q ->
  forall s : Q, (0 <= s)%Q ->
    (s + inject_Z (Z.of_nat months) * ms <= compoundMonths months ms r s)%Q.
Proof.
  intros Hms Hr. induction months as [| months IH]; intros s Hs.
  - cbn [compoundMonths]. change (inject_Z (Z.of_nat 0)) with 0%Q. lra.
  - cbn [compoundMonths add mul Exact].
    assert (H0 : (0 <= (s + ms) * r)%Q) by (apply Qmult_le_0_compat; lra).
    assert (H1 : (0 <= s + ms + (s + ms) * r)%Q) by lra.
    specialize (IH _ H1).
    rewrite Nat2Z.inj_succ. unfold Z.succ. rewrite inject_Z_plus.
    change (inject_Z 1) with 1%Q. lra.
Qed.

Lemma monthlyReturn_zero (wealthData : WealthData Q) :
  (investmentReturn wealthData == 0)%Q ->
  (investmentReturn wealthData / 100 / 12 == 0)%Q.
Proof.
  intros ->. reflexivity.
Qed.

Lemma monthlyReturn_nonnegative (wealthData : WealthData Q) :
  (0 <= investmentReturn wealthData)%Q ->
  (0 <= investmentReturn wealthData / 100 / 12)%Q.
Proof.
  intros Hr. apply Qle_shift_div_l; [reflexivity |].
  apply Qle_shift_div_l; [reflexivity |]. lra.
Qed.





(** X24: in every number model, when the retirement age is not below the
    current age, the retirement savings shown on the dashboard are the
    total of the last point of the series, which is the point of the
    retirement age, and the annual retirement income is 0.04 times that
    total; without projections (before the first calculation) the
    retirement savings are 0. *)
Theorem retirement_savings_figure {N : Type} `{JsNumber N}
    (wealthData : WealthData N) :
  age wealthData <= retirementAge wealthData ->
  let series := fst (calculateRetirementProjection wealthData) in
  WealthDashboard.retirementSavings (N := N) [] = lit 0
  /\ exists final,
       nth_error series
         (Z.to_nat (retirementAge wealthData - age wealthData)) = Some final
       /\ projectedAge final = retirementAge wealthData
       /\ WealthDashboard.retirementSavings series = total final
       /\ WealthDashboard.annualRetirementIncome series
          = (total final * lit 0.04)%js.
Proof.
  intros Hage series. split; [reflexivity |].
  pose proof (retirementProjections_length wealthData) as Hlen.
  pose proof (retirement_series_nth_error wealthData) as Hshape.
  fold series in Hlen, Hshape.
  unfold WealthDashboard.annualRetirementIncome,
    WealthDashboard.retirementSavings.
  destruct (rev series) as [| final others] eqn:Hrev.
  - apply (f_equal (@length _)) in Hrev. rewrite length_rev, Hlen in Hrev.
    cbn in Hrev. lia.
  - apply rev_head_nth_error in Hrev.
    replace (length series - 1)%nat
      with (Z.to_nat (retirementAge wealthData - age wealthData)) in Hrev
      by (rewrite Hlen; lia).
    exists final. split; [exact Hrev |].
    destruct (Hshape _ _ Hrev) as (Ha & _).
    repeat split. lia.
Qed.

Lemma retirement_savings_figure_witness :
  exists final,
    nth_error (fst (calculateRetirementProjection example_wealth)) 30
    = Some final
    /\ projectedAge final = 65
    /\ WealthDashboard.retirementSavings
         (fst (calculateRetirementProjection example_wealth)) = total final
    /\ WealthDashboard.annualRetirementIncome
         (fst (calculateRetirementProjection example_wealth))
       = (total final * lit 0.04)%js.
Proof.
  destruct (retirement_savings_figure example_wealth) as [_ Hfinal].
  - vm_compute. discriminate.
  - exact Hfinal.
Defined.

End WealthExtras.
